(** * eo-learn core: feature taxonomy, typed feature dictionaries and EOPatch

    A shallow embedding of [eolearn/core/constants.py] and
    [eolearn/core/eodata.py].  Python objects that have an identity (arrays,
    geometry tables, meta-info values, [FeatureIO] placeholders) live in a
    heap and are passed by reference; operations run in a state-and-exception
    monad over that heap. *)

From stdpp Require Import gmap strings list fin_maps.
From Stdlib Require Import Ascii.

Local Open Scope string_scope.
Local Open Scope list_scope.
Local Open Scope nat_scope.

(** ** constants.py *)

Definition TIMESTAMP_COLUMN : string := "TIMESTAMP".

Inductive FeatureType :=
  | DATA | MASK | SCALAR | LABEL | VECTOR
  | DATA_TIMELESS | MASK_TIMELESS | SCALAR_TIMELESS | LABEL_TIMELESS
  | VECTOR_TIMELESS | META_INFO | BBOX | TIMESTAMPS.

#[global] Instance FeatureType_eq_dec : EqDecision FeatureType.
Proof. solve_decision. Defined.

(** Iteration order of the enumeration ([for feature_type in FeatureType]). *)
Definition FeatureType_members : list FeatureType :=
  [DATA; MASK; SCALAR; LABEL; VECTOR; DATA_TIMELESS; MASK_TIMELESS;
   SCALAR_TIMELESS; LABEL_TIMELESS; VECTOR_TIMELESS; META_INFO; BBOX;
   TIMESTAMPS].

(** The enumeration value of a member, i.e. the EOPatch attribute name. *)
Definition FeatureType_value (self : FeatureType) : string :=
  match self with
  | DATA => "data" | MASK => "mask" | SCALAR => "scalar" | LABEL => "label"
  | VECTOR => "vector" | DATA_TIMELESS => "data_timeless"
  | MASK_TIMELESS => "mask_timeless" | SCALAR_TIMELESS => "scalar_timeless"
  | LABEL_TIMELESS => "label_timeless" | VECTOR_TIMELESS => "vector_timeless"
  | META_INFO => "meta_info" | BBOX => "bbox" | TIMESTAMPS => "timestamps"
  end.

Definition is_spatial (self : FeatureType) : bool :=
  bool_decide (self ∈ [DATA; MASK; VECTOR; DATA_TIMELESS; MASK_TIMELESS;
                       VECTOR_TIMELESS]).

Definition is_temporal (self : FeatureType) : bool :=
  bool_decide (self ∈ [DATA; MASK; SCALAR; LABEL; VECTOR; TIMESTAMPS]).

Definition is_discrete (self : FeatureType) : bool :=
  bool_decide (self ∈ [MASK; MASK_TIMELESS; LABEL; LABEL_TIMELESS]).

Definition is_meta (self : FeatureType) : bool :=
  bool_decide (self ∈ [META_INFO; BBOX; TIMESTAMPS]).

Definition is_timeless (self : FeatureType) : bool :=
  negb (is_temporal self || is_meta self).

Definition is_vector (self : FeatureType) : bool :=
  bool_decide (self ∈ [VECTOR; VECTOR_TIMELESS]).

Definition is_array (self : FeatureType) : bool :=
  bool_decide (self ∈ [DATA; MASK; SCALAR; LABEL; DATA_TIMELESS;
                       MASK_TIMELESS; SCALAR_TIMELESS; LABEL_TIMELESS]).

Definition is_image (self : FeatureType) : bool :=
  is_array self && is_spatial self.

(** [FeatureType.ndim]: a table lookup guarded by [is_array]; the table has
    one row per array kind, so the lookup cannot miss. *)
Definition ndim (self : FeatureType) : option nat :=
  if is_array self then
    match self with
    | DATA => Some 4
    | MASK => Some 4
    | SCALAR => Some 2
    | LABEL => Some 2
    | DATA_TIMELESS => Some 3
    | MASK_TIMELESS => Some 3
    | SCALAR_TIMELESS => Some 1
    | LABEL_TIMELESS => Some 1
    | _ => None
    end
  else None.

(** ** Python objects

    Element types, arrays and geometry tables carry just what the container
    inspects: [dtype], [ndim] (the length of [shape]), the time axis (axis 0)
    and the column names of a table. *)

Inductive dtype :=
  | bool_
  | int_ (bits : nat)
  | uint (bits : nat)
  | float_ (bits : nat)
  | complex_ (bits : nat)
  | object_.

(** A numpy array in row-major order. *)
Record ndarray := { arr_dtype : dtype; arr_shape : list nat; arr_buffer : list Z }.

Definition arr_ndim (a : ndarray) : nat := length (arr_shape a).

Record GeoSeries := { gs_crs : option nat; gs_geometry : list Z }.

Record GeoDataFrame :=
  { gdf_crs : option nat; gdf_columns : list string; gdf_rows : list (list Z) }.

(** [gpd.GeoDataFrame(geometry=value, crs=value.crs)] *)
Definition GeoDataFrame_from_series (value : GeoSeries) : GeoDataFrame :=
  {| gdf_crs := gs_crs value;
     gdf_columns := ["geometry"];
     gdf_rows := (λ g, [g]) <$> gs_geometry value |}.

(** Any other Python value (what a meta-info entry may hold). *)
#[local] Set Warnings "-register-all".
Inductive json :=
  | JNone
  | JBool (b : bool)
  | JInt (z : Z)
  | JStr (s : string)
  | JList (l : list json)
  | JDict (l : list (string * json)).
#[local] Set Warnings "register-all".

Inductive value :=
  | VNdarray (a : ndarray)
  | VGeoSeries (s : GeoSeries)
  | VGeoDataFrame (g : GeoDataFrame)
  | VJson (j : json).

(** Heap locations: the identity of a Python object ([x is y] is equality of
    locations). *)
Definition loc := nat.

(** Modelled from the spec: the placeholder class [FeatureIO] of
    [eodata_io.py], which is not part of the sources at hand.  Per the data
    model a placeholder is a collaborator reference (a file system and the
    descriptor of the entry in it) plus an owned, write-once memo slot. *)
Record FeatureIO :=
  { filesystem : nat; path : string; loaded_value : option loc }.

Inductive pyobj :=
  | OValue (v : value)
  | OFeatureIO (io : FeatureIO).

Definition is_FeatureIO (o : pyobj) : bool :=
  match o with OFeatureIO _ => true | OValue _ => false end.

(** ** The world: heap, backing store and the log of collaborator calls *)

Record world :=
  { heap : gmap loc pyobj;              (* live Python objects *)
    backing_store : gmap (nat * string) value;  (* stored entries, per file system and path *)
    calls : list (nat * string) }.      (* reads issued to the backing store, latest first *)

Inductive value_error :=
  | NotNumpyFeatureType       (* "does not represent a Numpy based feature" *)
  | NotVectorFeatureType      (* "does not represent a vector feature" *)
  | NotNumpyArray             (* "feature has to be a numpy array" *)
  | WrongDimension (expected got : nat)
  | NotDiscreteDtype (dt : dtype)
  | MissingTimestampColumn
  | NotGeoDataFrame
  | IllegalCharacter (char : ascii)
  | EmptyFeatureName
  | UndefinedBBox             (* "The BBox of an EOPatch should never be undefined." *)
  | NotInList.                (* list.index(x): x not in list *)

Inductive exception :=
  | KeyError
  | ValueError (why : value_error)
  | TypeError
  | IndexError
  | OSError                   (* the backing store failed to resolve a descriptor *)
  | InvalidIndexError         (* pandas: the key is not a column label *)
  | Unallocated.              (* a dangling reference; no Python program has one *)

Inductive result (A : Type) :=
  | Ok (a : A)
  | Raise (e : exception).
Arguments Ok {A} a.
Arguments Raise {A} e.

(** Computations read and update the world and either return or raise. *)
Definition M (A : Type) : Type := world → result A * world.

#[global] Instance M_ret : MRet M := λ A a w, (Ok a, w).
#[global] Instance M_bind : MBind M := λ A B f m w,
  match m w with
  | (Ok a, w') => f a w'
  | (Raise e, w') => (Raise e, w')
  end.

Definition raise {A} (e : exception) : M A := λ w, (Raise e, w).

Definition deref (l : loc) : M pyobj := λ w,
  match heap w !! l with
  | Some o => (Ok o, w)
  | None => (Raise Unallocated, w)
  end.

(** A new object gets a location no live object has. *)
Definition alloc (o : pyobj) : M loc := λ w,
  let l := fresh (dom (heap w)) in
  (Ok l, {| heap := <[l := o]> (heap w);
            backing_store := backing_store w;
            calls := calls w |}).

Definition store (l : loc) (o : pyobj) : M unit := λ w,
  (Ok (), {| heap := <[l := o]> (heap w);
             backing_store := backing_store w;
             calls := calls w |}).

(** One read of the backing store: the call is logged, then the descriptor is
    resolved or the read fails. *)
Definition read_backing_store (fs : nat) (p : string) : M value := λ w,
  let w' := {| heap := heap w;
               backing_store := backing_store w;
               calls := (fs, p) :: calls w |} in
  match backing_store w !! (fs, p) with
  | Some v => (Ok v, w')
  | None => (Raise OSError, w')
  end.

Fixpoint foldM {A B} (f : A → B → M A) (a : A) (l : list B) : M A :=
  match l with
  | [] => mret a
  | b :: l' => a' ← f a b; foldM f a' l'
  end.

(** Modelled from the spec: [FeatureIO.load] of [eodata_io.py].  The memo slot
    is write-once: an unresolved placeholder asks the backing store, keeps the
    resolved value and returns it; a resolved one returns its memo and asks
    nobody.  A failed read propagates and leaves the memo empty. *)
Definition FeatureIO_load (self : loc) : M loc :=
  o ← deref self;
  match o with
  | OFeatureIO io =>
      match loaded_value io with
      | Some v => mret v
      | None =>
          content ← read_backing_store (filesystem io) (path io);
          v ← alloc (OValue content);
          _ ← store self (OFeatureIO {| filesystem := filesystem io;
                                        path := path io;
                                        loaded_value := Some v |});
          mret v
      end
  | OValue _ => raise TypeError
  end.

(** Modelled from the spec: [is_discrete_type] of [utils/common.py]: "discrete
    kinds require integer/boolean element type". *)
Definition is_discrete_type (number_type : dtype) : bool :=
  match number_type with
  | bool_ | int_ _ | uint _ => true
  | float_ _ | complex_ _ | object_ => false
  end.

(** ** Indexing along the time axis

    [value[idxs, ...]] with a list of indices: numpy picks the rows of axis 0
    in the order of the list and returns a new array; an index past the axis,
    or an array of rank 0, is an [IndexError]. *)

Definition row_size (a : ndarray) : nat := foldr Nat.mul 1 (tail (arr_shape a)).

Definition row (a : ndarray) (idx : nat) : list Z :=
  take (row_size a) (drop (idx * row_size a) (arr_buffer a)).

Definition take_rows (a : ndarray) (idxs : list nat) : option ndarray :=
  match arr_shape a with
  | [] => None
  | n :: rest =>
      if forallb (λ idx, idx <? n) idxs then
        Some {| arr_dtype := arr_dtype a;
                arr_shape := length idxs :: rest;
                arr_buffer := concat (row a <$> idxs) |}
      else None
  end.

(** The subscript on whatever object the entry holds: an array is indexed, a
    geometry table takes the key for a column label and refuses it, and
    anything else (a placeholder among them) is not subscriptable that way. *)
Definition getitem_rows (value : loc) (idxs : list nat) : M loc :=
  o ← deref value;
  match o with
  | OValue (VNdarray a) =>
      match take_rows a idxs with
      | Some a' => alloc (OValue (VNdarray a'))
      | None => raise IndexError
      end
  | OValue (VGeoDataFrame _) => raise InvalidIndexError
  | _ => raise TypeError
  end.

(** ** eodata.py: [_FeatureDict] and its three subclasses *)

Inductive FeatureDict_class :=
  | _FeatureDictNumpy
  | _FeatureDictGeoDf
  | _FeatureDictJson.

Module _FeatureDict.

(** A dictionary from feature names to object references, with the
    instance attributes [feature_type] and (numpy class only) [ndim];
    [self_ndim = None] is an instance that has no [ndim] attribute. *)
Record t :=
  { class : FeatureDict_class;
    feature_type : FeatureType;
    self_ndim : option nat;
    items : gmap string loc }.

Definition with_items (self : t) (m : gmap string loc) : t :=
  {| class := class self; feature_type := feature_type self;
     self_ndim := self_ndim self; items := m |}.

Definition FORBIDDEN_CHARS : list ascii :=
  ["."; "/"; "\"; "|"; ";"; ":"; ascii_of_nat 10; ascii_of_nat 9]%char.

(** The loop of [_check_feature_name] over the characters of the name. *)
Fixpoint first_forbidden (chars : list ascii) : option ascii :=
  match chars with
  | [] => None
  | char :: rest =>
      if bool_decide (char ∈ FORBIDDEN_CHARS) then Some char
      else first_forbidden rest
  end.

(** Names are strings by typing, so the [isinstance(feature_name, str)]
    test always passes. *)
Definition _check_feature_name (self : t) (feature_name : string) : M unit :=
  match first_forbidden (String.list_ascii_of_string feature_name) with
  | Some char => raise (ValueError (IllegalCharacter char))
  | None =>
      if bool_decide (feature_name = "") then raise (ValueError EmptyFeatureName)
      else mret ()
  end.

(** [_parse_feature_value], by class.  [value] is the reference and [o] the
    object it points to; the result is the reference to store. *)
Definition _parse_feature_value (self : t) (value : loc) (o : pyobj)
    (feature_name : string) : M loc :=
  match class self with
  | _FeatureDictNumpy =>
      match o with
      | OValue (VNdarray a) =>
          match self_ndim self with
          | None => mret value
          | Some n =>
              if bool_decide (arr_ndim a ≠ n) then
                raise (ValueError (WrongDimension n (arr_ndim a)))
              else if is_discrete (feature_type self)
                      && negb (is_discrete_type (arr_dtype a)) then
                raise (ValueError (NotDiscreteDtype (arr_dtype a)))
              else mret value
          end
      | _ => raise (ValueError NotNumpyArray)
      end
  | _FeatureDictGeoDf =>
      (* a GeoSeries is first turned into a new GeoDataFrame *)
      '(value, o) ← match o with
                    | OValue (VGeoSeries s) =>
                        let g := OValue (VGeoDataFrame (GeoDataFrame_from_series s)) in
                        l ← alloc g; mret (l, g)
                    | _ => mret (value, o)
                    end;
      match o with
      | OValue (VGeoDataFrame g) =>
          if bool_decide (feature_type self = VECTOR)
             && bool_decide (TIMESTAMP_COLUMN ∉ gdf_columns g) then
            raise (ValueError MissingTimestampColumn)
          else mret value
      | _ => raise (ValueError NotGeoDataFrame)
      end
  | _FeatureDictJson => mret value
  end.

(** The first statement of [__setitem__]: a value that is not a
    [FeatureIO] is parsed, a [FeatureIO] is taken as it is. *)
Definition parsed_unless_FeatureIO (self : t) (value : loc) (o : pyobj)
    (feature_name : string) : M loc :=
  if negb (is_FeatureIO o) then _parse_feature_value self value o feature_name
  else mret value.

Definition __setitem__ (self : t) (feature_name : string) (value : loc) : M t :=
  o ← deref value;
  value ← parsed_unless_FeatureIO self value o feature_name;
  _ ← _check_feature_name self feature_name;
  mret (with_items self (<[feature_name := value]> (items self))).

(** [__getitem__(feature_name, load)] returns the value and the dictionary,
    which a loading read updates in place. *)
Definition __getitem__ (self : t) (feature_name : string) (load : bool) : M (loc * t) :=
  match items self !! feature_name with
  | None => raise KeyError
  | Some value =>
      o ← deref value;
      if is_FeatureIO o && load then
        value ← FeatureIO_load value;
        self ← __setitem__ self feature_name value;
        mret (value, self)
      else mret (value, self)
  end.

Definition __delitem__ (self : t) (feature_name : string) : M t :=
  match items self !! feature_name with
  | None => raise KeyError
  | Some _ => mret (with_items self (delete feature_name (items self)))
  end.

(** [__init__] of the base class: an empty dictionary with its attributes
    set, then one [__setitem__] per given item. *)
Definition __init__ (self : t) (feature_dict : gmap string loc) : M t :=
  foldM (λ self '(feature_name, value), __setitem__ self feature_name value)
        self (map_to_list feature_dict).

(** The constructors of the three classes. *)
Definition new (cls : FeatureDict_class) (feature_dict : gmap string loc)
    (feature_type : FeatureType) : M t :=
  match cls with
  | _FeatureDictNumpy =>
      match ndim feature_type with
      | None => raise (ValueError NotNumpyFeatureType)
      | Some n =>
          __init__ {| class := cls; feature_type := feature_type;
                      self_ndim := Some n; items := ∅ |} feature_dict
      end
  | _FeatureDictGeoDf =>
      if negb (is_vector feature_type) then raise (ValueError NotVectorFeatureType)
      else __init__ {| class := cls; feature_type := feature_type;
                       self_ndim := None; items := ∅ |} feature_dict
  | _FeatureDictJson =>
      __init__ {| class := cls; feature_type := feature_type;
                  self_ndim := None; items := ∅ |} feature_dict
  end.

Definition empty_factory (cls : FeatureDict_class) (feature_type : FeatureType) : M t :=
  new cls ∅ feature_type.

End _FeatureDict.

Definition _create_feature_dict (feature_type : FeatureType)
    (value : gmap string loc) : M _FeatureDict.t :=
  if is_vector feature_type then _FeatureDict.new _FeatureDictGeoDf value feature_type
  else if bool_decide (feature_type = META_INFO) then
    _FeatureDict.new _FeatureDictJson value feature_type
  else _FeatureDict.new _FeatureDictNumpy value feature_type.

(** ** eodata.py: [EOPatch] *)

(** The bounding box with its CRS: an opaque immutable value. *)
Record BBox := { bbox_coords : list Z; bbox_crs : Z }.

Definition datetime := Z.

(** The name half of a feature specification: [None], [...] or a string. *)
Inductive name_arg :=
  | NoName
  | AnyName
  | Name (s : string).

(** What indexes an EOPatch: a feature type or a (feature type, name) pair. *)
Inductive feature_key :=
  | Bare (feature_type : FeatureType)
  | Pair (feature_type : FeatureType) (feature_name : name_arg).

(** Values that travel through the EOPatch interface: the scalar kinds'
    values, dictionaries, and references to heap objects (every feature value
    and every [FeatureIO] is passed by reference). *)
Inductive pyvalue :=
  | PyNone
  | PyBBox (b : BBox)
  | PyList (l : list datetime)
  | PyDict (d : gmap string loc)
  | PyFeatureDict (d : _FeatureDict.t)
  | PyRef (l : loc).

Module EOPatch.

(** The attributes hold values of their declared types; an attribute that
    is itself a [FeatureIO] (as the loader leaves [bbox], [timestamps] and
    [meta_info]) is outside this model. *)
Record t :=
  { data : _FeatureDict.t;
    mask : _FeatureDict.t;
    scalar : _FeatureDict.t;
    label : _FeatureDict.t;
    vector : _FeatureDict.t;
    data_timeless : _FeatureDict.t;
    mask_timeless : _FeatureDict.t;
    scalar_timeless : _FeatureDict.t;
    label_timeless : _FeatureDict.t;
    vector_timeless : _FeatureDict.t;
    meta_info : _FeatureDict.t;
    bbox : option BBox;
    timestamps : list datetime }.

(** The dictionary attribute of an entry kind. *)
Definition feature_dict (self : t) (key : FeatureType) : option _FeatureDict.t :=
  match key with
  | DATA => Some (data self)
  | MASK => Some (mask self)
  | SCALAR => Some (scalar self)
  | LABEL => Some (label self)
  | VECTOR => Some (vector self)
  | DATA_TIMELESS => Some (data_timeless self)
  | MASK_TIMELESS => Some (mask_timeless self)
  | SCALAR_TIMELESS => Some (scalar_timeless self)
  | LABEL_TIMELESS => Some (label_timeless self)
  | VECTOR_TIMELESS => Some (vector_timeless self)
  | META_INFO => Some (meta_info self)
  | BBOX | TIMESTAMPS => None
  end.

(** Plain attribute read, [super().__getattribute__(key)]. *)
Definition getattr (self : t) (key : FeatureType) : pyvalue :=
  match feature_dict self key with
  | Some d => PyFeatureDict d
  | None =>
      if bool_decide (key = BBOX) then
        match bbox self with Some b => PyBBox b | None => PyNone end
      else PyList (timestamps self)
  end.

Definition set_feature_dict (self : t) (key : FeatureType) (d : _FeatureDict.t) : t :=
  let pick k old := if bool_decide (key = k) then d else old in
  {| data := pick DATA (data self);
     mask := pick MASK (mask self);
     scalar := pick SCALAR (scalar self);
     label := pick LABEL (label self);
     vector := pick VECTOR (vector self);
     data_timeless := pick DATA_TIMELESS (data_timeless self);
     mask_timeless := pick MASK_TIMELESS (mask_timeless self);
     scalar_timeless := pick SCALAR_TIMELESS (scalar_timeless self);
     label_timeless := pick LABEL_TIMELESS (label_timeless self);
     vector_timeless := pick VECTOR_TIMELESS (vector_timeless self);
     meta_info := pick META_INFO (meta_info self);
     bbox := bbox self;
     timestamps := timestamps self |}.

Definition set_bbox (self : t) (b : option BBox) : t :=
  {| data := data self; mask := mask self; scalar := scalar self;
     label := label self; vector := vector self;
     data_timeless := data_timeless self; mask_timeless := mask_timeless self;
     scalar_timeless := scalar_timeless self;
     label_timeless := label_timeless self;
     vector_timeless := vector_timeless self; meta_info := meta_info self;
     bbox := b; timestamps := timestamps self |}.

Definition set_timestamps (self : t) (l : list datetime) : t :=
  {| data := data self; mask := mask self; scalar := scalar self;
     label := label self; vector := vector self;
     data_timeless := data_timeless self; mask_timeless := mask_timeless self;
     scalar_timeless := scalar_timeless self;
     label_timeless := label_timeless self;
     vector_timeless := vector_timeless self; meta_info := meta_info self;
     bbox := bbox self; timestamps := l |}.

(** Plain attribute write, [super().__setattr__(key, value)].  A value that
    does not have the attribute's declared type has no place in [t]: the
    write is refused with [TypeError]. *)
Definition setattr (self : t) (key : FeatureType) (value : pyvalue) : M t :=
  match key, value with
  | BBOX, PyNone => mret (set_bbox self None)
  | BBOX, PyBBox b => mret (set_bbox self (Some b))
  | TIMESTAMPS, PyList l => mret (set_timestamps self l)
  | (BBOX | TIMESTAMPS), _ => raise TypeError
  | _, PyFeatureDict d => mret (set_feature_dict self key d)
  | _, _ => raise TypeError
  end.

(** Timestamps are datetimes by typing, so no string is left for
    [dateutil.parser.parse]. *)
Definition _parse_feature_type_value (feature_type : FeatureType)
    (value : pyvalue) : M pyvalue :=
  match feature_type, value with
  | BBOX, (PyNone | PyBBox _) => mret value
  | TIMESTAMPS, PyList l => mret (PyList l)
  | _, PyFeatureDict d => mret value
  | _, PyDict d => d ← _create_feature_dict feature_type d; mret (PyFeatureDict d)
  | _, _ => raise TypeError
  end.

Definition value_is_FeatureIO (value : pyvalue) : M bool :=
  match value with
  | PyRef l => o ← deref l; mret (is_FeatureIO o)
  | _ => mret false
  end.

Definition __setattr__ (self : t) (key : FeatureType) (value : pyvalue)
    (feature_name : name_arg) : M t :=
  match feature_name with
  | Name feature_name =>
      (* self.__getattribute__(key)[feature_name] = value *)
      match getattr self key, value with
      | PyFeatureDict d, PyRef l =>
          d ← _FeatureDict.__setitem__ d feature_name l;
          mret (set_feature_dict self key d)
      | _, _ => raise TypeError
      end
  | NoName | AnyName =>
      is_io ← value_is_FeatureIO value;
      value ← (if negb is_io then _parse_feature_type_value key value
               else mret value);
      setattr self key value
  end.

(** [__getattribute__(key, load=True, feature_name)]: the value read and
    the patch, whose dictionary a loading read updates in place. *)
Definition __getattribute__ (self : t) (key : FeatureType)
    (feature_name : name_arg) : M (pyvalue * t) :=
  let value := getattr self key in
  match feature_name, value with
  | Name feature_name, PyFeatureDict d =>
      '(v, d) ← _FeatureDict.__getitem__ d feature_name true;
      mret (PyRef v, set_feature_dict self key d)
  | _, _ => mret (value, self)
  end.

Definition unpack (key : feature_key) : FeatureType * name_arg :=
  match key with
  | Pair feature_type feature_name => (feature_type, feature_name)
  | Bare feature_type => (feature_type, NoName)
  end.

Definition __getitem__ (self : t) (key : feature_key) : M (pyvalue * t) :=
  let '(feature_type, feature_name) := unpack key in
  __getattribute__ self feature_type feature_name.

Definition __setitem__ (self : t) (key : feature_key) (value : pyvalue) : M t :=
  let '(feature_type, feature_name) := unpack key in
  __setattr__ self feature_type value feature_name.

(** [del d[name]] on the dictionary [d = self[feature_type]]; a key that is
    not a string is in no dictionary. *)
Definition del_entry (d : _FeatureDict.t) (feature_name : name_arg) : M _FeatureDict.t :=
  match feature_name with
  | Name s => _FeatureDict.__delitem__ d s
  | NoName | AnyName => raise KeyError
  end.

Definition __delitem__ (self : t) (feature : feature_key) : M t :=
  let reset feature_type :=
    if bool_decide (feature_type = BBOX) then raise (ValueError UndefinedBBox)
    else if bool_decide (feature_type = TIMESTAMPS) then
      __setitem__ self (Bare feature_type) (PyList [])
    else __setitem__ self (Bare feature_type) (PyDict ∅) in
  match feature with
  | Pair feature_type feature_name =>
      if bool_decide (feature_type ∈ [BBOX; TIMESTAMPS]) then reset feature_type
      else
        '(value, self) ← __getitem__ self (Bare feature_type);
        match value with
        | PyFeatureDict d =>
            d ← del_entry d feature_name;
            mret (set_feature_dict self feature_type d)
        | _ => raise TypeError
        end
  | Bare feature_type => reset feature_type
  end.

(** [l.index(x)]: the position of the first occurrence. *)
Definition list_index (x : datetime) (l : list datetime) : option nat :=
  fst <$> list_find (λ y, y = x) l.

Definition enumerate {A} (l : list A) : list (nat * A) := imap pair l.

(** The four comprehensions at the head of [consolidate_timestamps].  The
    set's iteration order only decides the order of the index list, which is
    used for membership. *)
Definition remove_from_patch (own timestamps : list datetime) : gset datetime :=
  list_to_set own ∖ list_to_set timestamps.

Definition remove_from_patch_idxs (own timestamps : list datetime) : option (list nat) :=
  mapM (λ rm_date, list_index rm_date own) (elements (remove_from_patch own timestamps)).

Definition good_timestamp_idxs (own : list datetime) (removed_idxs : list nat) : list nat :=
  (filter (λ p, p.1 ∉ removed_idxs) (enumerate own)).*1.

Definition good_timestamps (own : list datetime) (removed_idxs : list nat) : list datetime :=
  (filter (λ p, p.1 ∉ removed_idxs) (enumerate own)).*2.

Definition relevant_features : list FeatureType :=
  filter (λ ftype, is_temporal ftype && negb (is_meta ftype) = true) FeatureType_members.

(** The body of the inner loop:
    [self[feature_type][feature_name] = value[good_timestamp_idxs, ...]]. *)
Definition consolidate_entry (feature_type : FeatureType) (idxs : list nat)
    (self : t) (item : string * loc) : M t :=
  let '(feature_name, value) := item in
  value ← getitem_rows value idxs;
  '(d, self) ← __getitem__ self (Bare feature_type);
  match d with
  | PyFeatureDict d =>
      d ← _FeatureDict.__setitem__ d feature_name value;
      mret (set_feature_dict self feature_type d)
  | _ => raise TypeError
  end.

(** The inner loop, over the items of [self[feature_type]]. *)
Definition consolidate_feature_type (idxs : list nat) (self : t)
    (feature_type : FeatureType) : M t :=
  '(d, self) ← __getitem__ self (Bare feature_type);
  match d with
  | PyFeatureDict d =>
      foldM (consolidate_entry feature_type idxs) self
            (map_to_list (_FeatureDict.items d))
  | _ => raise TypeError
  end.

Definition consolidate_timestamps (self : t) (timestamps : list datetime)
    : M (gset datetime * t) :=
  let removed := remove_from_patch (EOPatch.timestamps self) timestamps in
  match remove_from_patch_idxs (EOPatch.timestamps self) timestamps with
  | None => raise (ValueError NotInList)
  | Some removed_idxs =>
      let good_idxs := good_timestamp_idxs (EOPatch.timestamps self) removed_idxs in
      let good := good_timestamps (EOPatch.timestamps self) removed_idxs in
      self ← foldM (consolidate_feature_type good_idxs) self relevant_features;
      self ← __setattr__ self TIMESTAMPS (PyList good) NoName;
      mret (removed, self)
  end.

(** The attrs-generated constructor, [EOPatch(bbox=..., timestamps=...)]:
    every dictionary attribute comes from its factory, and each attribute is
    assigned through [__setattr__]. *)
Definition new (bbox : option BBox) (timestamps : list datetime) : M t :=
  let arbitrary := {| _FeatureDict.class := _FeatureDictJson;
                      _FeatureDict.feature_type := META_INFO;
                      _FeatureDict.self_ndim := None;
                      _FeatureDict.items := ∅ |} in
  let self := {| data := arbitrary; mask := arbitrary; scalar := arbitrary;
                 label := arbitrary; vector := arbitrary;
                 data_timeless := arbitrary; mask_timeless := arbitrary;
                 scalar_timeless := arbitrary; label_timeless := arbitrary;
                 vector_timeless := arbitrary; meta_info := arbitrary;
                 bbox := None; timestamps := [] |} in
  let assign cls feature_type (self : t) : M t :=
    d ← _FeatureDict.empty_factory cls feature_type;
    __setattr__ self feature_type (PyFeatureDict d) NoName in
  self ← assign _FeatureDictNumpy DATA self;
  self ← assign _FeatureDictNumpy MASK self;
  self ← assign _FeatureDictNumpy SCALAR self;
  self ← assign _FeatureDictNumpy LABEL self;
  self ← assign _FeatureDictGeoDf VECTOR self;
  self ← assign _FeatureDictNumpy DATA_TIMELESS self;
  self ← assign _FeatureDictNumpy MASK_TIMELESS self;
  self ← assign _FeatureDictNumpy SCALAR_TIMELESS self;
  self ← assign _FeatureDictNumpy LABEL_TIMELESS self;
  self ← assign _FeatureDictGeoDf VECTOR_TIMELESS self;
  self ← assign _FeatureDictJson META_INFO self;
  self ← __setattr__ self BBOX (match bbox with Some b => PyBBox b | None => PyNone end) NoName;
  __setattr__ self TIMESTAMPS (PyList timestamps) NoName.

(** [bool(value)] of what a bare feature type yields: [None] and empty
    containers are false.  (A bare feature type never yields a reference.) *)
Definition truth (value : pyvalue) : bool :=
  match value with
  | PyNone => false
  | PyBBox _ => true
  | PyList l => bool_decide (l ≠ [])
  | PyDict d => bool_decide (d ≠ ∅)
  | PyFeatureDict d => bool_decide (_FeatureDict.items d ≠ ∅)
  | PyRef _ => true
  end.

(** [fname in d]: plain dictionary membership; [None] and [...] are keys of
    no collection. *)
Definition name_in (fname : name_arg) (d : _FeatureDict.t) : bool :=
  match fname with
  | Name s => bool_decide (is_Some (_FeatureDict.items d !! s))
  | NoName | AnyName => false
  end.

(** [key in eopatch], for a feature type or a pair. *)
Definition __contains__ (self : t) (key : feature_key) : M (bool * t) :=
  match key with
  | Bare feature_type =>
      '(value, self) ← __getitem__ self (Bare feature_type);
      mret (truth value, self)
  | Pair ftype fname =>
      if bool_decide (ftype ∈ [BBOX; TIMESTAMPS]) then
        '(value, self) ← __getitem__ self (Bare ftype);
        mret (truth value, self)
      else
        '(value, self) ← __getitem__ self (Bare ftype);
        match value with
        | PyFeatureDict d => mret (name_in fname d, self)
        | _ => raise TypeError
        end
  end.

(** The deprecated [reset_feature_type] (its warning left out). *)
Definition reset_feature_type (self : t) (feature_type : FeatureType) : M t :=
  if bool_decide (feature_type = BBOX) then raise (ValueError UndefinedBBox)
  else if bool_decide (feature_type = TIMESTAMPS) then
    __setitem__ self (Bare feature_type) (PyList [])
  else __setitem__ self (Bare feature_type) (PyDict ∅).

End EOPatch.

(** ** constants.py, continued: names, values and the deprecated sets *)

(** [_warn_and_adjust]: the deprecated singular of TIMESTAMPS is replaced, in
    either case, and every other name is returned as it is. *)
Definition _warn_and_adjust (name : string) : string :=
  if bool_decide (name ∈ ["TIMESTAMP"; "timestamp"]) then
    if bool_decide (name = "TIMESTAMP") then "TIMESTAMPS" else "timestamps"
  else name.

(** The name of a member, [FeatureType.DATA.name]. *)
Definition FeatureType_name (self : FeatureType) : string :=
  match self with
  | DATA => "DATA" | MASK => "MASK" | SCALAR => "SCALAR" | LABEL => "LABEL"
  | VECTOR => "VECTOR" | DATA_TIMELESS => "DATA_TIMELESS"
  | MASK_TIMELESS => "MASK_TIMELESS" | SCALAR_TIMELESS => "SCALAR_TIMELESS"
  | LABEL_TIMELESS => "LABEL_TIMELESS" | VECTOR_TIMELESS => "VECTOR_TIMELESS"
  | META_INFO => "META_INFO" | BBOX => "BBOX" | TIMESTAMPS => "TIMESTAMPS"
  end.

(** The enumeration's own lookups, by value and by name; [None] is the
    [ValueError] or [KeyError] of a miss. *)
Definition member_of_value (value : string) : option FeatureType :=
  snd <$> list_find (λ member, FeatureType_value member = value) FeatureType_members.

Definition member_of_name (name : string) : option FeatureType :=
  snd <$> list_find (λ member, FeatureType_name member = name) FeatureType_members.

(** [FeatureType(value)], through [EnumWithDeprecations.__call__]. *)
Definition FeatureType_call (value : string) : option FeatureType :=
  member_of_value (_warn_and_adjust value).

(** [FeatureType[name]], through [EnumWithDeprecations.__getitem__] (and
    [FeatureType.NAME], through [__getattribute__]). *)
Definition FeatureType_getitem (name : string) : option FeatureType :=
  member_of_name (_warn_and_adjust name).

(** [FeatureType.has_value]: membership in the value map, with no adjusting
    of the value. *)
Definition has_value (value : string) : bool :=
  bool_decide (is_Some (member_of_value value)).

Definition has_dict (self : FeatureType) : bool :=
  bool_decide (self ∈ [DATA; MASK; SCALAR; LABEL; VECTOR; DATA_TIMELESS;
                       MASK_TIMELESS; SCALAR_TIMELESS; LABEL_TIMELESS;
                       VECTOR_TIMELESS; META_INFO]).

Module FeatureTypeSet.
Definition SPATIAL_TYPES : list FeatureType :=
  [DATA; MASK; VECTOR; DATA_TIMELESS; MASK_TIMELESS; VECTOR_TIMELESS].
Definition TEMPORAL_TYPES : list FeatureType :=
  [DATA; MASK; SCALAR; LABEL; VECTOR; TIMESTAMPS].
Definition TIMELESS_TYPES : list FeatureType :=
  [DATA_TIMELESS; MASK_TIMELESS; SCALAR_TIMELESS; LABEL_TIMELESS; VECTOR_TIMELESS].
Definition DISCRETE_TYPES : list FeatureType :=
  [MASK; MASK_TIMELESS; LABEL; LABEL_TIMELESS].
Definition META_TYPES : list FeatureType := [META_INFO; BBOX; TIMESTAMPS].
Definition VECTOR_TYPES : list FeatureType := [VECTOR; VECTOR_TIMELESS].
Definition RASTER_TYPES : list FeatureType :=
  [DATA; MASK; SCALAR; LABEL; DATA_TIMELESS; MASK_TIMELESS; SCALAR_TIMELESS;
   LABEL_TIMELESS].
Definition DICT_TYPES : list FeatureType :=
  [DATA; MASK; SCALAR; LABEL; VECTOR; DATA_TIMELESS; MASK_TIMELESS;
   SCALAR_TIMELESS; LABEL_TIMELESS; VECTOR_TIMELESS; META_INFO].
Definition RASTER_TYPES_4D : list FeatureType := [DATA; MASK].
Definition RASTER_TYPES_3D : list FeatureType := [DATA_TIMELESS; MASK_TIMELESS].
Definition RASTER_TYPES_2D : list FeatureType := [SCALAR; LABEL].
Definition RASTER_TYPES_1D : list FeatureType := [SCALAR_TIMELESS; LABEL_TIMELESS].
End FeatureTypeSet.

(** ** utils/testing.py: generated patches

    The random generator is taken as its draws: the depth drawn for a
    feature and the numbers that fill its array. *)

Module testing.

Definition DEFAULT_BBOX : BBox :=
  {| bbox_coords := [0; 0; 100; 100]%Z; bbox_crs := 32633%Z |}.

(** [timestamps] is what [__post_init__] computes from the range and the
    number of timestamps. *)
Record PatchGeneratorConfig :=
  { num_timestamps : nat;
    timestamps_range : datetime * datetime;
    timestamps : list datetime;
    max_integer_value : Z;
    raster_shape : nat * nat;
    depth_range : nat * nat }.

Definition _get_feature_shape (depth : nat) (ftype : FeatureType)
    (timestamps : list datetime) (config : PatchGeneratorConfig) : list nat :=
  let time := length timestamps in
  let '(height, width) := raster_shape config in
  if is_spatial ftype && negb (is_vector ftype) then
    if is_temporal ftype then [time; height; width; depth] else [height; width; depth]
  else
    if is_temporal ftype then [time; depth] else [depth].

(** [rng.integers(max, size=shape)] gives 64-bit integers and
    [rng.normal(size=shape)] 64-bit floats. *)
Definition _generate_feature_data (samples : list Z) (ftype : FeatureType)
    (shape : list nat) (config : PatchGeneratorConfig) : ndarray :=
  if is_discrete ftype then
    {| arr_dtype := int_ 64; arr_shape := shape; arr_buffer := samples |}
  else
    {| arr_dtype := float_ 64; arr_shape := shape; arr_buffer := samples |}.

(** The loop body of [generate_eopatch]; the new array is a new object. *)
Definition generate_feature (timestamps : list datetime)
    (config : PatchGeneratorConfig) (patch : EOPatch.t)
    (item : FeatureType * string * (nat * list Z)) : M EOPatch.t :=
  let '(ftype, fname, (depth, samples)) := item in
  let shape := _get_feature_shape depth ftype timestamps config in
  data ← alloc (OValue (VNdarray (_generate_feature_data samples ftype shape config)));
  EOPatch.__setitem__ patch (Pair ftype (Name fname)) (PyRef data).

(** [generate_eopatch], given the features as the feature parser returns
    them and, for each, the generator's draws. *)
Definition generate_eopatch (parsed_features : list (FeatureType * string))
    (rng : list (nat * list Z)) (bbox : BBox) (timestamps : option (list datetime))
    (config : PatchGeneratorConfig) : M EOPatch.t :=
  let timestamps := match timestamps with
                    | Some timestamps => timestamps
                    | None => testing.timestamps config
                    end in
  patch ← EOPatch.new (Some bbox) timestamps;
  foldM (generate_feature timestamps config) patch (zip parsed_features rng).

End testing.

(** * Specification vocabulary *)

(** A name that [_check_feature_name] lets through. *)
Definition valid_name (feature_name : string) : Prop :=
  feature_name ≠ "" ∧
  ∀ char, char ∈ String.list_ascii_of_string feature_name →
          char ∉ _FeatureDict.FORBIDDEN_CHARS.

(** The class [_create_feature_dict] picks for a feature type. *)
Definition class_for (feature_type : FeatureType) : FeatureDict_class :=
  if is_vector feature_type then _FeatureDictGeoDf
  else if bool_decide (feature_type = META_INFO) then _FeatureDictJson
  else _FeatureDictNumpy.

(** A typed collection of a given kind: a dictionary whose class and instance
    attributes are the ones its constructor sets for that kind. *)
Definition typed_collection (feature_type : FeatureType) (d : _FeatureDict.t) : Prop :=
  _FeatureDict.feature_type d = feature_type ∧
  _FeatureDict.class d = class_for feature_type ∧
  _FeatureDict.self_ndim d = ndim feature_type.

(** The value invariant of a collection, as a test on a realized value: what
    [_parse_feature_value] lets through. *)
Definition accepts (d : _FeatureDict.t) (content : value) : bool :=
  match _FeatureDict.class d, content with
  | _FeatureDictNumpy, VNdarray a =>
      match _FeatureDict.self_ndim d with
      | None => true
      | Some n =>
          bool_decide (arr_ndim a = n)
          && (negb (is_discrete (_FeatureDict.feature_type d))
              || is_discrete_type (arr_dtype a))
      end
  | _FeatureDictNumpy, _ => false
  | _FeatureDictGeoDf, VGeoSeries s =>
      negb (bool_decide (_FeatureDict.feature_type d = VECTOR))
  | _FeatureDictGeoDf, VGeoDataFrame g =>
      negb (bool_decide (_FeatureDict.feature_type d = VECTOR))
      || bool_decide (TIMESTAMP_COLUMN ∈ gdf_columns g)
  | _FeatureDictGeoDf, _ => false
  | _FeatureDictJson, _ => true
  end.

(** The value a collection keeps for an accepted one: a geometry collection
    turns a GeoSeries into a table, everything else is kept as it is. *)
Definition stored_form (d : _FeatureDict.t) (content : value) : value :=
  match _FeatureDict.class d, content with
  | _FeatureDictGeoDf, VGeoSeries s => VGeoDataFrame (GeoDataFrame_from_series s)
  | _, _ => content
  end.

(** What a placeholder resolves to, and the collaborator calls that takes:
    one read of the backing store when the memo is empty, none when the memo
    is filled. *)
Definition resolves (w : world) (io : FeatureIO) (content : value)
    (reads : list (nat * string)) : Prop :=
  match loaded_value io with
  | None =>
      backing_store w !! (filesystem io, path io) = Some content
      ∧ reads = [(filesystem io, path io)]
  | Some memo => heap w !! memo = Some (OValue content) ∧ reads = []
  end.

(** The positions of its own timestamps that consolidation keeps, each with
    its timestamp: a position is dropped when its timestamp is not among the
    given ones and has not occurred at an earlier position. *)
Definition kept_positions (own timestamps : list datetime) : list (nat * datetime) :=
  filter (λ p, p.2 ∈ timestamps ∨ p.2 ∈ take p.1 own) (EOPatch.enumerate own).

(** The time axis of an array has at least [n] rows. *)
Definition time_axis_covers (a : ndarray) (n : nat) : Prop :=
  match arr_shape a with
  | [] => False
  | rows :: _ => n ≤ rows
  end.

(** An entry that consolidation can slice: a realized array under a valid
    name, accepted by its collection, with a row for every own timestamp. *)
Definition sliceable_entry (w : world) (self : EOPatch.t) (d : _FeatureDict.t)
    (feature_name : string) (value : loc) : Prop :=
  valid_name feature_name
  ∧ ∃ a, heap w !! value = Some (OValue (VNdarray a))
         ∧ accepts d (VNdarray a) = true
         ∧ time_axis_covers a (length (EOPatch.timestamps self)).

(** The invariant of a collection in a world: every name is valid and every
    entry is a live object, either a placeholder or a realized value that the
    collection accepts, in the form the collection keeps (a table, not a
    GeoSeries, in a geometry collection). *)
Definition collection_valid (w : world) (d : _FeatureDict.t) : Prop :=
  ∀ feature_name value,
    _FeatureDict.items d !! feature_name = Some value →
    valid_name feature_name
    ∧ ∃ o, heap w !! value = Some o
           ∧ match o with
             | OValue content =>
                 accepts d content = true ∧ stored_form d content = content
             | OFeatureIO _ => True
             end.

(** What remains of a world after an operation that creates realized values
    and nothing else: the objects that were there are as they were, what is
    new is a realized value, and the backing store was not read. *)
Definition only_values_added (w w' : world) : Prop :=
  (∀ l o, heap w !! l = Some o → heap w' !! l = Some o)
  ∧ (∀ l io, heap w' !! l = Some (OFeatureIO io) → heap w !! l = Some (OFeatureIO io))
  ∧ backing_store w' = backing_store w
  ∧ calls w' = calls w.

(** A patch of arrays over a list of timestamps: every collection is the
    typed collection of its kind, and every entry is a realized array of an
    array kind, under a valid name, accepted by its collection and, for a
    temporal kind, with a row for every timestamp. *)
Definition array_patch (w : world) (timestamps : list datetime) (patch : EOPatch.t) : Prop :=
  ∀ feature_type d,
    EOPatch.feature_dict patch feature_type = Some d →
    typed_collection feature_type d
    ∧ ∀ feature_name ref,
        _FeatureDict.items d !! feature_name = Some ref →
        is_array feature_type = true
        ∧ valid_name feature_name
        ∧ ∃ a, heap w !! ref = Some (OValue (VNdarray a))
               ∧ accepts d (VNdarray a) = true
               ∧ (is_temporal feature_type = true →
                  time_axis_covers a (length timestamps)).

(** ** Concrete worlds and collections, for the examples *)

Definition example_world (objects : list (loc * pyobj))
    (files : list (nat * string * value)) : world :=
  {| heap := list_to_map objects; backing_store := list_to_map files; calls := [] |}.

(** The collection [_create_feature_dict feature_type {}] builds. *)
Definition empty_collection (feature_type : FeatureType) : _FeatureDict.t :=
  {| _FeatureDict.class := class_for feature_type;
     _FeatureDict.feature_type := feature_type;
     _FeatureDict.self_ndim := ndim feature_type;
     _FeatureDict.items := ∅ |}.

(** The patch [EOPatch(bbox=..., timestamps=...)] builds. *)
Definition empty_patch (bbox : option BBox) (timestamps : list datetime) : EOPatch.t :=
  {| EOPatch.data := empty_collection DATA;
     EOPatch.mask := empty_collection MASK;
     EOPatch.scalar := empty_collection SCALAR;
     EOPatch.label := empty_collection LABEL;
     EOPatch.vector := empty_collection VECTOR;
     EOPatch.data_timeless := empty_collection DATA_TIMELESS;
     EOPatch.mask_timeless := empty_collection MASK_TIMELESS;
     EOPatch.scalar_timeless := empty_collection SCALAR_TIMELESS;
     EOPatch.label_timeless := empty_collection LABEL_TIMELESS;
     EOPatch.vector_timeless := empty_collection VECTOR_TIMELESS;
     EOPatch.meta_info := empty_collection META_INFO;
     EOPatch.bbox := bbox;
     EOPatch.timestamps := timestamps |}.

(** * Properties *)

(** ** Stepping through computations *)

Lemma bind_unfold {A B} (m : M A) (f : A → M B) (w : world) :
  (m ≫= f) w =
  match m w with
  | (Ok a, w') => f a w'
  | (Raise e, w') => (Raise e, w')
  end.
Proof. reflexivity. Qed.

Lemma ret_unfold {A} (a : A) (w : world) : (mret a : M A) w = (Ok a, w).
Proof. reflexivity. Qed.

Lemma raised_not_returned {A} (run : result A * world) e :
  fst run = Raise e → ¬ ∃ a w', run = (Ok a, w').
Proof. intros E (a & w' & ->). discriminate. Qed.

Lemma bind_Ok {A B} (m : M A) (f : A → M B) w a w' :
  m w = (Ok a, w') → (m ≫= f) w = f a w'.
Proof. intros H. rewrite bind_unfold, H. reflexivity. Qed.

Lemma bind_Raise {A B} (m : M A) (f : A → M B) w e w' :
  m w = (Raise e, w') → (m ≫= f) w = (Raise e, w').
Proof. intros H. rewrite bind_unfold, H. reflexivity. Qed.

Lemma deref_Some l o w : heap w !! l = Some o → deref l w = (Ok o, w).
Proof. intros H. unfold deref. rewrite H. reflexivity. Qed.

Lemma deref_None l w : heap w !! l = None → deref l w = (Raise Unallocated, w).
Proof. intros H. unfold deref. rewrite H. reflexivity. Qed.

(** ** Feature names *)

Lemma first_forbidden_None chars :
  _FeatureDict.first_forbidden chars = None ↔
  ∀ char, char ∈ chars → char ∉ _FeatureDict.FORBIDDEN_CHARS.
Proof.
  induction chars as [|c chars IH]; simpl.
  - split; [intros _ ch Hch; inversion Hch | done].
  - case_bool_decide as Hc.
    + split; [done|]. intros H. exfalso. apply (H c); [left | exact Hc].
    + rewrite IH. split.
      * intros H ch Hch. apply elem_of_cons in Hch as [->|Hch]; auto.
      * intros H ch Hch. apply H. by right.
Qed.

Lemma first_forbidden_Some chars char :
  _FeatureDict.first_forbidden chars = Some char →
  char ∈ chars ∧ char ∈ _FeatureDict.FORBIDDEN_CHARS.
Proof.
  induction chars as [|c chars IH]; simpl; [done|].
  case_bool_decide as Hc.
  - intros [= <-]. split; [left | done].
  - intros H. destruct (IH H) as [? ?]. split; [by right | done].
Qed.

Lemma check_feature_name_valid self feature_name w :
  valid_name feature_name →
  _FeatureDict._check_feature_name self feature_name w = (Ok (), w).
Proof.
  intros [Hne Hch]. unfold _FeatureDict._check_feature_name.
  apply first_forbidden_None in Hch. rewrite Hch.
  rewrite bool_decide_eq_false_2 by done. reflexivity.
Qed.

Lemma check_feature_name_invalid self feature_name w :
  ¬ valid_name feature_name →
  ∃ why, _FeatureDict._check_feature_name self feature_name w
         = (Raise (ValueError why), w).
Proof.
  intros Hbad. unfold _FeatureDict._check_feature_name.
  destruct (_FeatureDict.first_forbidden _) as [c|] eqn:E; [by eexists|].
  case_bool_decide as Hn; [by eexists|].
  exfalso. apply Hbad. split; [done|]. by apply first_forbidden_None.
Qed.

(** ** Typed collections are what the constructors build *)

Lemma setitem_attributes self feature_name value w self' w' :
  _FeatureDict.__setitem__ self feature_name value w = (Ok self', w') →
  _FeatureDict.class self' = _FeatureDict.class self ∧
  _FeatureDict.feature_type self' = _FeatureDict.feature_type self ∧
  _FeatureDict.self_ndim self' = _FeatureDict.self_ndim self.
Proof.
  unfold _FeatureDict.__setitem__. rewrite bind_unfold.
  destruct (deref value w) as [[o|e] w1]; [|done].
  rewrite bind_unfold.
  destruct (_FeatureDict.parsed_unless_FeatureIO self value o feature_name w1)
    as [[v|e] w2]; [|done].
  rewrite bind_unfold.
  destruct (_FeatureDict._check_feature_name self feature_name w2)
    as [[[]|e] w3]; [|done].
  intros [= <- <-]. done.
Qed.

Lemma init_attributes feature_dict : ∀ self w self' w',
  _FeatureDict.__init__ self feature_dict w = (Ok self', w') →
  _FeatureDict.class self' = _FeatureDict.class self ∧
  _FeatureDict.feature_type self' = _FeatureDict.feature_type self ∧
  _FeatureDict.self_ndim self' = _FeatureDict.self_ndim self.
Proof.
  unfold _FeatureDict.__init__.
  induction (map_to_list feature_dict) as [|[n v] l IH]; simpl; intros self w self' w'.
  - intros [= <- <-]. done.
  - rewrite bind_unfold.
    destruct (_FeatureDict.__setitem__ self n v w) as [[s1|e] w1] eqn:E; [|done].
    intros H. apply IH in H as (-> & -> & ->).
    by apply setitem_attributes in E.
Qed.

Lemma create_feature_dict_typed feature_type value w d w' :
  _create_feature_dict feature_type value w = (Ok d, w') →
  typed_collection feature_type d.
Proof.
  unfold _create_feature_dict, typed_collection, class_for, _FeatureDict.new.
  destruct (is_vector feature_type) eqn:Hv; simpl.
  - intros H. apply init_attributes in H as (-> & -> & ->); simpl.
    by destruct feature_type.
  - case_bool_decide as Hm.
    + intros H. apply init_attributes in H as (-> & -> & ->); simpl. by subst.
    + destruct (ndim feature_type) as [n|] eqn:Hn; [|done].
      intros H. apply init_attributes in H as (-> & -> & ->); simpl. done.
Qed.

(** ** Insertion into an array collection *)

Lemma array_kind_class feature_type r :
  ndim feature_type = Some r → class_for feature_type = _FeatureDictNumpy.
Proof. by destruct feature_type. Qed.

(** C3: for every array kind with expected rank [r] (4 for DATA and MASK, 2
    for SCALAR and LABEL, 3 for DATA_TIMELESS and MASK_TIMELESS, 1 for
    SCALAR_TIMELESS and LABEL_TIMELESS), inserting an array whose rank is not
    [r] into a collection of that kind raises [ValueError] (the validation
    error of the code), and so does inserting, into a collection of a discrete
    kind (MASK, MASK_TIMELESS, LABEL, LABEL_TIMELESS), an array whose element
    type is neither integer nor boolean.  Nothing is stored. *)
Theorem insert_array_wrong_rank_or_dtype
    (feature_type : FeatureType) (r : nat) (d : _FeatureDict.t)
    (feature_name : string) (value : loc) (a : ndarray) (w : world) :
  ndim feature_type = Some r →
  typed_collection feature_type d →
  heap w !! value = Some (OValue (VNdarray a)) →
  r = match feature_type with
      | DATA | MASK => 4
      | SCALAR | LABEL => 2
      | DATA_TIMELESS | MASK_TIMELESS => 3
      | _ => 1
      end
  ∧ (arr_ndim a ≠ r →
     _FeatureDict.__setitem__ d feature_name value w
     = (Raise (ValueError (WrongDimension r (arr_ndim a))), w))
  ∧ (is_discrete feature_type = true →
     feature_type ∈ [MASK; MASK_TIMELESS; LABEL; LABEL_TIMELESS]
     ∧ (is_discrete_type (arr_dtype a) = false →
        ∃ why, _FeatureDict.__setitem__ d feature_name value w
               = (Raise (ValueError why), w))).
Proof.
  intros Hr (Hft & Hcls & Hnd) Hv.
  rewrite (array_kind_class _ _ Hr) in Hcls. rewrite Hr in Hnd.
  assert (Hset : _FeatureDict.__setitem__ d feature_name value w
                 = (x ← _FeatureDict._parse_feature_value d value
                          (OValue (VNdarray a)) feature_name;
                    _ ← _FeatureDict._check_feature_name d feature_name;
                    mret (_FeatureDict.with_items d
                            (<[feature_name := x]> (_FeatureDict.items d)))) w).
  { unfold _FeatureDict.__setitem__. by rewrite (bind_Ok _ _ _ _ _ (deref_Some _ _ _ Hv)). }
  split; [|split].
  - destruct feature_type; vm_compute in Hr; simplify_eq; reflexivity.
  - intros Hrank. rewrite Hset. apply bind_Raise.
    unfold _FeatureDict._parse_feature_value. rewrite Hcls, Hnd.
    by rewrite bool_decide_eq_true_2.
  - intros Hdisc. split.
    { unfold is_discrete in Hdisc. by apply bool_decide_eq_true in Hdisc. }
    intros Hdt. rewrite Hset.
    unfold _FeatureDict._parse_feature_value. rewrite Hcls, Hnd, Hft, Hdisc, Hdt.
    case_bool_decide; eexists; by apply bind_Raise.
Qed.

Lemma insert_array_wrong_rank_or_dtype_witness :
  let a := {| arr_dtype := float_ 32; arr_shape := [2; 3]; arr_buffer := [1; 2; 3; 4; 5; 6]%Z |} in
  let w := example_world [(0, OValue (VNdarray a))] [] in
  _FeatureDict.__setitem__ (empty_collection MASK) "clouds" 0 w
  = (Raise (ValueError (WrongDimension 4 2)), w).
Proof.
  intros a w.
  refine (proj1 (proj2 (insert_array_wrong_rank_or_dtype MASK 4 (empty_collection MASK)
                          "clouds" 0 a w _ _ _)) _).
  - reflexivity.
  - by repeat split.
  - reflexivity.
  - vm_compute. lia.
Defined.

(** ** Allocation *)

Lemma fresh_unallocated (w : world) : heap w !! fresh (dom (heap w)) = None.
Proof. apply not_elem_of_dom, is_fresh. Qed.

Lemma alloc_unfold o w :
  alloc o w = (Ok (fresh (dom (heap w))),
               {| heap := <[fresh (dom (heap w)) := o]> (heap w);
                  backing_store := backing_store w; calls := calls w |}).
Proof. reflexivity. Qed.

Lemma lookup_after_alloc (w : world) o l o' :
  heap w !! l = Some o' → <[fresh (dom (heap w)) := o]> (heap w) !! l = Some o'.
Proof.
  intros H. rewrite lookup_insert_ne; [done|].
  intros <-. rewrite fresh_unallocated in H. done.
Qed.

(** ** What [_parse_feature_value] accepts *)

Lemma parse_accepted d value content feature_name w :
  heap w !! value = Some (OValue content) →
  accepts d content = true →
  ∃ value' w',
    _FeatureDict._parse_feature_value d value (OValue content) feature_name w
    = (Ok value', w')
    ∧ heap w' !! value' = Some (OValue (stored_form d content))
    ∧ (stored_form d content = content → value' = value ∧ w' = w)
    ∧ (∀ l o, heap w !! l = Some o → heap w' !! l = Some o)
    ∧ backing_store w' = backing_store w
    ∧ calls w' = calls w.
Proof.
  intros Hv Hacc.
  unfold _FeatureDict._parse_feature_value, accepts, stored_form in *.
  destruct (_FeatureDict.class d), content as [a|s|g|j]; try done;
    try (by exists value, w).
  - (* an array in a numpy collection *)
    destruct (_FeatureDict.self_ndim d) as [n|]; [|by exists value, w].
    apply andb_true_iff in Hacc as [Hn Hd]. apply bool_decide_eq_true in Hn.
    rewrite bool_decide_eq_false_2 by (intros ?; done).
    destruct (is_discrete _); simpl in Hd; [rewrite Hd|]; by exists value, w.
  - (* a GeoSeries in a geometry collection: a new table is allocated *)
    apply negb_true_iff in Hacc. rewrite bind_unfold, bind_unfold, alloc_unfold.
    simpl. rewrite Hacc. simpl.
    eexists _, _. split; [reflexivity|]. simpl.
    split; [by rewrite lookup_insert_eq|].
    split; [done|]. split; [|done].
    intros l o Hl. by apply lookup_after_alloc.
  - (* a table in a geometry collection *)
    rewrite bind_unfold. simpl.
    destruct (bool_decide (_FeatureDict.feature_type d = VECTOR)); simpl in *.
    + apply bool_decide_eq_true in Hacc.
      rewrite bool_decide_eq_false_2 by (intros ?; done). by exists value, w.
    + by exists value, w.
Qed.

Lemma parse_rejected d value content feature_name w :
  accepts d content = false →
  ∃ why w',
    _FeatureDict._parse_feature_value d value (OValue content) feature_name w
    = (Raise (ValueError why), w')
    ∧ calls w' = calls w
    ∧ (∀ l o, heap w !! l = Some o → heap w' !! l = Some o).
Proof.
  intros Hacc.
  unfold _FeatureDict._parse_feature_value, accepts in *.
  destruct (_FeatureDict.class d), content as [a|s|g|j]; try done;
    try (by eexists _, w).
  - destruct (_FeatureDict.self_ndim d) as [n|]; [|done].
    destruct (decide (arr_ndim a = n)) as [Hn|Hn].
    + rewrite bool_decide_eq_true_2 in Hacc by done. simpl in Hacc.
      rewrite bool_decide_eq_false_2 by (intros ?; done).
      apply orb_false_iff in Hacc as [Hd Ht]. apply negb_false_iff in Hd.
      rewrite Hd, Ht. by eexists _, w.
    + rewrite bool_decide_eq_true_2 by done. by eexists _, w.
  - apply negb_false_iff in Hacc. rewrite bind_unfold, bind_unfold, alloc_unfold.
    simpl. rewrite Hacc. simpl.
    eexists _, _. split; [reflexivity|]. split; [done|].
    intros l o Hl. by apply lookup_after_alloc.
  - rewrite bind_unfold. simpl.
    apply orb_false_iff in Hacc as [Hv Hc]. apply negb_false_iff in Hv.
    apply bool_decide_eq_false in Hc.
    rewrite Hv, bool_decide_eq_true_2 by done. by eexists _, w.
Qed.

(** ** [__setitem__] of a collection *)

Lemma setitem_unfold d feature_name value o w :
  heap w !! value = Some o →
  _FeatureDict.__setitem__ d feature_name value w
  = (value' ← _FeatureDict.parsed_unless_FeatureIO d value o feature_name;
     _ ← _FeatureDict._check_feature_name d feature_name;
     mret (_FeatureDict.with_items d
             (<[feature_name := value']> (_FeatureDict.items d)))) w.
Proof.
  intros Hv. unfold _FeatureDict.__setitem__.
  by rewrite (bind_Ok _ _ _ _ _ (deref_Some _ _ _ Hv)).
Qed.

Lemma setitem_FeatureIO d feature_name value io w :
  heap w !! value = Some (OFeatureIO io) →
  valid_name feature_name →
  _FeatureDict.__setitem__ d feature_name value w
  = (Ok (_FeatureDict.with_items d
           (<[feature_name := value]> (_FeatureDict.items d))), w).
Proof.
  intros Hv Hname. rewrite (setitem_unfold _ _ _ _ _ Hv).
  rewrite bind_unfold. simpl. rewrite bind_unfold.
  by rewrite check_feature_name_valid.
Qed.

Lemma setitem_accepted d feature_name value content w :
  heap w !! value = Some (OValue content) →
  valid_name feature_name →
  accepts d content = true →
  ∃ value' w',
    _FeatureDict.__setitem__ d feature_name value w
    = (Ok (_FeatureDict.with_items d
             (<[feature_name := value']> (_FeatureDict.items d))), w')
    ∧ heap w' !! value' = Some (OValue (stored_form d content))
    ∧ (stored_form d content = content → value' = value ∧ w' = w)
    ∧ (∀ l o, heap w !! l = Some o → heap w' !! l = Some o)
    ∧ backing_store w' = backing_store w
    ∧ calls w' = calls w.
Proof.
  intros Hv Hname Hacc. rewrite (setitem_unfold _ _ _ _ _ Hv).
  destruct (parse_accepted d value content feature_name w Hv Hacc)
    as (value' & w' & Hp & Hrest).
  exists value', w'. split; [|exact Hrest].
  rewrite bind_unfold. unfold _FeatureDict.parsed_unless_FeatureIO. simpl.
  rewrite Hp, bind_unfold. by rewrite check_feature_name_valid.
Qed.

Lemma setitem_rejected d feature_name value content w :
  heap w !! value = Some (OValue content) →
  accepts d content = false →
  ∃ why w',
    _FeatureDict.__setitem__ d feature_name value w = (Raise (ValueError why), w')
    ∧ calls w' = calls w
    ∧ (∀ l o, heap w !! l = Some o → heap w' !! l = Some o).
Proof.
  intros Hv Hacc. rewrite (setitem_unfold _ _ _ _ _ Hv).
  destruct (parse_rejected d value content feature_name w Hacc)
    as (why & w' & Hp & Hrest).
  exists why, w'. split; [|exact Hrest].
  rewrite bind_unfold. unfold _FeatureDict.parsed_unless_FeatureIO. simpl.
  by rewrite Hp.
Qed.

Lemma setitem_invalid_name d feature_name value o w :
  heap w !! value = Some o →
  ¬ valid_name feature_name →
  ∃ why w',
    _FeatureDict.__setitem__ d feature_name value w = (Raise (ValueError why), w').
Proof.
  intros Hv Hname. rewrite (setitem_unfold _ _ _ _ _ Hv).
  rewrite bind_unfold. unfold _FeatureDict.parsed_unless_FeatureIO.
  destruct o as [content|io]; simpl.
  - destruct (accepts d content) eqn:Hacc.
    + destruct (parse_accepted d value content feature_name w Hv Hacc)
        as (value' & w' & -> & _).
      rewrite bind_unfold.
      destruct (check_feature_name_invalid d feature_name w' Hname) as [why ->].
      by exists why, w'.
    + destruct (parse_rejected d value content feature_name w Hacc)
        as (why & w' & -> & _). by exists why, w'.
  - rewrite bind_unfold.
    destruct (check_feature_name_invalid d feature_name w Hname) as [why ->].
    by exists why, w.
Qed.

Lemma invalid_name_iff feature_name :
  ¬ valid_name feature_name ↔
  feature_name = "" ∨
  ∃ char, char ∈ String.list_ascii_of_string feature_name
          ∧ char ∈ _FeatureDict.FORBIDDEN_CHARS.
Proof.
  unfold valid_name. split.
  - intros Hbad. destruct (decide (feature_name = "")) as [|Hne]; [by left|right].
    destruct (_FeatureDict.first_forbidden (String.list_ascii_of_string feature_name))
      as [c|] eqn:E.
    + exists c. by apply first_forbidden_Some.
    + exfalso. apply Hbad. split; [done|]. by apply first_forbidden_None.
  - intros [->|(c & Hin & Hf)] [Hne Hall]; [done|]. by apply (Hall c).
Qed.

(** C4: inserting an entry under the empty name, or under a name containing
    one of the forbidden characters . / \ | ; : newline tab, raises
    [ValueError] (the validation error of the code), whatever the value;
    inserting a value the collection accepts (or a placeholder) under a valid
    name stores it under that name, replacing whatever entry the name had, and
    leaves every other entry as it was. *)
Theorem insert_name_validation_and_overwrite
    (d : _FeatureDict.t) (feature_name : string) (value : loc) (o : pyobj)
    (w : world) :
  heap w !! value = Some o →
  _FeatureDict.FORBIDDEN_CHARS
  = ["."; "/"; "\"; "|"; ";"; ":"; ascii_of_nat 10; ascii_of_nat 9]%char
  ∧ (feature_name = "" ∨
     (∃ char, char ∈ String.list_ascii_of_string feature_name
              ∧ char ∈ _FeatureDict.FORBIDDEN_CHARS) →
     ∃ why w',
       _FeatureDict.__setitem__ d feature_name value w
       = (Raise (ValueError why), w'))
  ∧ (valid_name feature_name →
     match o with OValue content => accepts d content = true | OFeatureIO _ => True end →
     ∃ d' value' w',
       _FeatureDict.__setitem__ d feature_name value w = (Ok d', w')
       ∧ _FeatureDict.items d' !! feature_name = Some value'
       ∧ heap w' !! value'
         = Some match o with
                | OValue content => OValue (stored_form d content)
                | OFeatureIO io => o
                end
       ∧ ∀ other, other ≠ feature_name →
           _FeatureDict.items d' !! other = _FeatureDict.items d !! other).
Proof.
  intros Hv. split; [reflexivity|]. split.
  - intros Hbad. apply invalid_name_iff in Hbad.
    by apply (setitem_invalid_name d feature_name value o w).
  - intros Hname Hacc. destruct o as [content|io].
    + destruct (setitem_accepted d feature_name value content w Hv Hname Hacc)
        as (value' & w' & Hset & Hheap & _).
      eexists _, value', w'. split; [exact Hset|]. simpl.
      split; [by rewrite lookup_insert_eq|]. split; [done|].
      intros other Hne. by rewrite lookup_insert_ne.
    + eexists _, value, w. split; [by apply (setitem_FeatureIO _ _ _ io)|]. simpl.
      split; [by rewrite lookup_insert_eq|]. split; [done|].
      intros other Hne. by rewrite lookup_insert_ne.
Qed.

Lemma valid_name_by_check feature_name :
  feature_name ≠ "" →
  _FeatureDict.first_forbidden (String.list_ascii_of_string feature_name) = None →
  valid_name feature_name.
Proof. intros Hne Hc. split; [done|]. by apply first_forbidden_None. Qed.

Lemma insert_name_validation_and_overwrite_witness :
  let old := {| arr_dtype := float_ 32; arr_shape := [1; 1; 1; 1]; arr_buffer := [7]%Z |} in
  let new := {| arr_dtype := float_ 32; arr_shape := [1; 1; 1; 2]; arr_buffer := [8; 9]%Z |} in
  let w := example_world [(0, OValue (VNdarray old)); (1, OValue (VNdarray new))] [] in
  let d := _FeatureDict.with_items (empty_collection DATA) {["bands" := 0]} in
  (∃ why w', _FeatureDict.__setitem__ d "a/b" 1 w = (Raise (ValueError why), w'))
  ∧ (∃ d' value' w',
       _FeatureDict.__setitem__ d "bands" 1 w = (Ok d', w')
       ∧ _FeatureDict.items d' !! "bands" = Some value'
       ∧ heap w' !! value' = Some (OValue (VNdarray new))
       ∧ ∀ other, other ≠ "bands" →
           _FeatureDict.items d' !! other = _FeatureDict.items d !! other).
Proof.
  intros old new w d. split.
  - refine (proj1 (proj2 (insert_name_validation_and_overwrite d "a/b" 1
                            (OValue (VNdarray new)) w _)) _).
    + reflexivity.
    + right. exists "/"%char. split; vm_compute; set_solver.
  - refine (proj2 (proj2 (insert_name_validation_and_overwrite d "bands" 1
                            (OValue (VNdarray new)) w _)) _ _).
    + reflexivity.
    + apply valid_name_by_check; [done | reflexivity].
    + reflexivity.
Defined.

(** ** Resolving a placeholder *)

Lemma load_resolves p io content reads w :
  heap w !! p = Some (OFeatureIO io) →
  resolves w io content reads →
  ∃ v w',
    FeatureIO_load p w = (Ok v, w')
    ∧ heap w' !! v = Some (OValue content)
    ∧ calls w' = reads ++ calls w
    ∧ backing_store w' = backing_store w
    ∧ heap w' !! p = Some (OFeatureIO {| filesystem := filesystem io;
                                         path := path io;
                                         loaded_value := Some v |})
    ∧ (∀ l o, l ≠ p → heap w !! l = Some o → heap w' !! l = Some o).
Proof.
  intros Hp Hres. unfold FeatureIO_load, resolves in *.
  rewrite (bind_Ok _ _ _ _ _ (deref_Some _ _ _ Hp)).
  destruct io as [fs pth [memo|]]; simpl in *.
  - destruct Hres as [Hm ->]. exists memo, w. by repeat split.
  - destruct Hres as [Hb ->].
    rewrite bind_unfold. unfold read_backing_store. rewrite Hb.
    rewrite bind_unfold, alloc_unfold. simpl.
    eexists _, _. split; [reflexivity|]. simpl.
    assert (fresh (dom (heap w)) ≠ p) as Hne.
    { intros E. rewrite <- E, fresh_unallocated in Hp. done. }
    split; [by rewrite lookup_insert_ne, lookup_insert_eq|].
    split; [done|]. split; [done|]. split; [by rewrite lookup_insert_eq|].
    intros l o Hl Hlo. rewrite lookup_insert_ne by done.
    by apply lookup_after_alloc.
Qed.

Lemma load_fails p io w :
  heap w !! p = Some (OFeatureIO io) →
  loaded_value io = None →
  backing_store w !! (filesystem io, path io) = None →
  ∃ w', FeatureIO_load p w = (Raise OSError, w')
        ∧ heap w' = heap w
        ∧ calls w' = (filesystem io, path io) :: calls w.
Proof.
  intros Hp Hm Hb. unfold FeatureIO_load.
  rewrite (bind_Ok _ _ _ _ _ (deref_Some _ _ _ Hp)). rewrite Hm.
  rewrite bind_unfold. unfold read_backing_store. rewrite Hb.
  by eexists.
Qed.

(** ** [__getitem__] of a collection *)

Lemma getitem_absent d feature_name load w :
  _FeatureDict.items d !! feature_name = None →
  _FeatureDict.__getitem__ d feature_name load w = (Raise KeyError, w).
Proof. intros H. unfold _FeatureDict.__getitem__. by rewrite H. Qed.

Lemma getitem_realized d feature_name value content load w :
  _FeatureDict.items d !! feature_name = Some value →
  heap w !! value = Some (OValue content) →
  _FeatureDict.__getitem__ d feature_name load w = (Ok (value, d), w).
Proof.
  intros H Hv. unfold _FeatureDict.__getitem__. rewrite H.
  by rewrite (bind_Ok _ _ _ _ _ (deref_Some _ _ _ Hv)).
Qed.

Lemma getitem_no_load d feature_name value o w :
  _FeatureDict.items d !! feature_name = Some value →
  heap w !! value = Some o →
  _FeatureDict.__getitem__ d feature_name false w = (Ok (value, d), w).
Proof.
  intros H Hv. unfold _FeatureDict.__getitem__. rewrite H.
  rewrite (bind_Ok _ _ _ _ _ (deref_Some _ _ _ Hv)).
  by rewrite andb_false_r.
Qed.

Lemma getitem_load_unfold d feature_name p io w :
  _FeatureDict.items d !! feature_name = Some p →
  heap w !! p = Some (OFeatureIO io) →
  _FeatureDict.__getitem__ d feature_name true w
  = (value ← FeatureIO_load p;
     self ← _FeatureDict.__setitem__ d feature_name value;
     mret (value, self)) w.
Proof.
  intros H Hp. unfold _FeatureDict.__getitem__. rewrite H.
  by rewrite (bind_Ok _ _ _ _ _ (deref_Some _ _ _ Hp)).
Qed.

Lemma getitem_load_accepted d feature_name p io content reads w :
  _FeatureDict.items d !! feature_name = Some p →
  heap w !! p = Some (OFeatureIO io) →
  valid_name feature_name →
  resolves w io content reads →
  accepts d content = true →
  ∃ v v' w',
    _FeatureDict.__getitem__ d feature_name true w
    = (Ok (v, _FeatureDict.with_items d
                (<[feature_name := v']> (_FeatureDict.items d))), w')
    ∧ calls w' = reads ++ calls w
    ∧ backing_store w' = backing_store w
    ∧ heap w' !! v = Some (OValue content)
    ∧ heap w' !! v' = Some (OValue (stored_form d content))
    ∧ (stored_form d content = content → v' = v)
    ∧ heap w' !! p = Some (OFeatureIO {| filesystem := filesystem io;
                                         path := path io;
                                         loaded_value := Some v |})
    ∧ (∀ l o, l ≠ p → heap w !! l = Some o → heap w' !! l = Some o).
Proof.
  intros H Hp Hname Hres Hacc. rewrite (getitem_load_unfold _ _ _ _ _ H Hp).
  destruct (load_resolves p io content reads w Hp Hres)
    as (v & w1 & Hload & Hv & Hcalls & Hbs & Hp1 & Hframe).
  rewrite (bind_Ok _ _ _ _ _ Hload).
  destruct (setitem_accepted d feature_name v content w1 Hv Hname Hacc)
    as (v' & w2 & Hset & Hv' & Hsame & Hframe2 & Hbs2 & Hcalls2).
  rewrite (bind_Ok _ _ _ _ _ Hset).
  exists v, v', w2. split; [done|].
  split; [congruence|]. split; [congruence|].
  split; [by apply Hframe2|]. split; [done|].
  split; [intros E; by destruct (Hsame E)|].
  split; [by apply Hframe2|].
  intros l o Hl Hlo. apply Hframe2. by apply Hframe.
Qed.

Lemma getitem_load_rejected d feature_name p io content reads w :
  _FeatureDict.items d !! feature_name = Some p →
  heap w !! p = Some (OFeatureIO io) →
  resolves w io content reads →
  accepts d content = false →
  ∃ why w',
    _FeatureDict.__getitem__ d feature_name true w = (Raise (ValueError why), w')
    ∧ calls w' = reads ++ calls w
    ∧ ∃ io', heap w' !! p = Some (OFeatureIO io').
Proof.
  intros H Hp Hres Hacc. rewrite (getitem_load_unfold _ _ _ _ _ H Hp).
  destruct (load_resolves p io content reads w Hp Hres)
    as (v & w1 & Hload & Hv & Hcalls & Hbs & Hp1 & Hframe).
  rewrite (bind_Ok _ _ _ _ _ Hload).
  destruct (setitem_rejected d feature_name v content w1 Hv Hacc)
    as (why & w2 & Hset & Hcalls2 & Hframe2).
  rewrite (bind_Raise _ _ _ _ _ Hset).
  exists why, w2. split; [done|]. split; [congruence|].
  eexists. by apply Hframe2.
Qed.




(** C9: insertion validates realized values only.  Inserting a placeholder
    checks the name and nothing else: under a valid name it is stored as it
    is, with no read of the backing store, whatever it would resolve to, and
    a read with [load = false] gives it back; under an invalid name the
    insertion raises [ValueError].  The value invariant of the collection
    meets that entry at the first loading read, which writes the resolved
    value back through [__setitem__]: the read succeeds when the collection
    accepts the resolved value and raises [ValueError], leaving the
    placeholder where it was, when it does not. *)
Theorem placeholder_validated_on_first_load
    (d : _FeatureDict.t) (feature_name : string) (p : loc) (io : FeatureIO)
    (w : world) :
  heap w !! p = Some (OFeatureIO io) →
  let d1 := _FeatureDict.with_items d (<[feature_name := p]> (_FeatureDict.items d)) in
  (¬ valid_name feature_name →
   ∃ why, _FeatureDict.__setitem__ d feature_name p w = (Raise (ValueError why), w))
  ∧ (valid_name feature_name →
     _FeatureDict.__setitem__ d feature_name p w = (Ok d1, w)
     ∧ _FeatureDict.__getitem__ d1 feature_name false w = (Ok (p, d1), w)
     ∧ ∀ content reads,
         resolves w io content reads →
         (accepts d content = true →
          ∃ v d' w',
            _FeatureDict.__getitem__ d1 feature_name true w = (Ok (v, d'), w')
            ∧ heap w' !! v = Some (OValue content)
            ∧ ∃ v', _FeatureDict.items d' !! feature_name = Some v'
                    ∧ heap w' !! v' = Some (OValue (stored_form d content)))
         ∧ (accepts d content = false →
            ∃ why w',
              _FeatureDict.__getitem__ d1 feature_name true w
              = (Raise (ValueError why), w')
              ∧ calls w' = reads ++ calls w
              ∧ ∃ io', heap w' !! p = Some (OFeatureIO io'))).
Proof.
  intros Hp d1.
  assert (Hd1 : _FeatureDict.items d1 !! feature_name = Some p)
    by (simpl; by rewrite lookup_insert_eq).
  split.
  - intros Hname. rewrite (setitem_unfold _ _ _ _ _ Hp).
    rewrite bind_unfold. simpl. rewrite bind_unfold.
    destruct (check_feature_name_invalid d feature_name w Hname) as [why ->].
    by exists why.
  - intros Hname. split; [by apply (setitem_FeatureIO _ _ _ io)|].
    split; [by apply (getitem_no_load _ _ _ (OFeatureIO io))|].
    intros content reads Hres. split; intros Hacc.
    + destruct (getitem_load_accepted d1 feature_name p io content reads w
                  Hd1 Hp Hname Hres Hacc)
        as (v & v' & w' & Hget & _ & _ & Hv & Hv' & _).
      eexists v, _, w'. split; [exact Hget|]. split; [done|].
      exists v'. simpl. by rewrite lookup_insert_eq.
    + by apply (getitem_load_rejected d1 feature_name p io content reads w).
Qed.

Lemma placeholder_validated_on_first_load_witness :
  let a := {| arr_dtype := float_ 64; arr_shape := [3]; arr_buffer := [1; 2; 3]%Z |} in
  let io := {| filesystem := 0; path := "mask/clouds.npy"; loaded_value := None |} in
  let w := example_world [(0, OFeatureIO io)] [((0, "mask/clouds.npy"), VNdarray a)] in
  let d := empty_collection MASK in
  let d1 := _FeatureDict.with_items d {["clouds" := 0]} in
  _FeatureDict.__setitem__ d "clouds" 0 w = (Ok d1, w)
  ∧ ∃ why w',
      _FeatureDict.__getitem__ d1 "clouds" true w = (Raise (ValueError why), w')
      ∧ calls w' = [(0, "mask/clouds.npy")] ++ calls w
      ∧ ∃ io', heap w' !! 0 = Some (OFeatureIO io').
Proof.
  intros a io w d d1.
  assert (Hname : valid_name "clouds")
    by (apply valid_name_by_check; [done | reflexivity]).
  pose proof (placeholder_validated_on_first_load d "clouds" 0 io w eq_refl) as H.
  destruct H as [_ H]. destruct (H Hname) as (Hset & _ & Hget).
  split; [exact Hset|].
  refine (proj2 (Hget (VNdarray a) [(0, "mask/clouds.npy")] _) _).
  - split; reflexivity.
  - reflexivity.
Defined.

(** ** Building collections and patches *)

Lemma create_empty_feature_dict feature_type w :
  feature_type ∉ [BBOX; TIMESTAMPS] →
  _create_feature_dict feature_type ∅ w = (Ok (empty_collection feature_type), w).
Proof.
  intros Hft. destruct feature_type; try reflexivity; exfalso; apply Hft; set_solver.
Qed.

Lemma new_patch bbox timestamps w :
  EOPatch.new bbox timestamps w = (Ok (empty_patch bbox timestamps), w).
Proof. by destruct bbox. Qed.

(** ** Addressing a patch *)

Lemma entry_kind_dict self feature_type :
  feature_type ∉ [BBOX; TIMESTAMPS] →
  ∃ d, EOPatch.feature_dict self feature_type = Some d
       ∧ EOPatch.getattr self feature_type = PyFeatureDict d.
Proof.
  intros Hft. unfold EOPatch.getattr.
  destruct feature_type; simpl; try (by eexists);
    exfalso; apply Hft; set_solver.
Qed.

Lemma feature_dict_set_same self feature_type d d0 :
  EOPatch.feature_dict self feature_type = Some d0 →
  EOPatch.feature_dict (EOPatch.set_feature_dict self feature_type d) feature_type
  = Some d.
Proof. by destruct feature_type. Qed.

Lemma feature_dict_set_other self feature_type other d :
  other ≠ feature_type →
  EOPatch.feature_dict (EOPatch.set_feature_dict self feature_type d) other
  = EOPatch.feature_dict self other.
Proof. intros Hne. by destruct feature_type, other. Qed.



(** ** Deleting from a patch *)


Lemma delete_entry_kind self feature_type w :
  feature_type ∉ [BBOX; TIMESTAMPS] →
  EOPatch.__delitem__ self (Bare feature_type) w
  = (Ok (EOPatch.set_feature_dict self feature_type (empty_collection feature_type)), w).
Proof.
  intros Hft. destruct feature_type; try reflexivity; exfalso; apply Hft; set_solver.
Qed.

Lemma delete_entry self feature_type d feature_name w :
  feature_type ∉ [BBOX; TIMESTAMPS] →
  EOPatch.feature_dict self feature_type = Some d →
  EOPatch.__delitem__ self (Pair feature_type (Name feature_name)) w
  = match _FeatureDict.items d !! feature_name with
    | Some _ =>
        (Ok (EOPatch.set_feature_dict self feature_type
               (_FeatureDict.with_items d (delete feature_name (_FeatureDict.items d)))), w)
    | None => (Raise KeyError, w)
    end.
Proof.
  intros Hft Hd. unfold EOPatch.__delitem__.
  rewrite bool_decide_eq_false_2 by done.
  unfold EOPatch.__getitem__, EOPatch.__getattribute__, EOPatch.getattr. simpl.
  rewrite Hd, bind_unfold. simpl. rewrite bind_unfold.
  unfold _FeatureDict.__delitem__.
  by destruct (_FeatureDict.items d !! feature_name).
Qed.



(** ** Which positions consolidation removes *)

Lemma filter_ext_elem_of {A} (P Q : A → Prop)
    `{∀ x, Decision (P x)} `{∀ x, Decision (Q x)} (l : list A) :
  (∀ x, x ∈ l → (P x ↔ Q x)) → filter P l = filter Q l.
Proof.
  induction l as [|x l IH]; intros HPQ; [done|].
  rewrite !filter_cons.
  assert (P x ↔ Q x) as Hx by (apply HPQ; left).
  rewrite IH by (intros y Hy; apply HPQ; by right).
  destruct (decide (P x)), (decide (Q x)); tauto.
Qed.

Lemma elem_of_enumerate {A} (l : list A) i x :
  (i, x) ∈ EOPatch.enumerate l ↔ l !! i = Some x.
Proof.
  unfold EOPatch.enumerate. rewrite elem_of_lookup_imap. split.
  - intros (j & y & [= -> ->] & Hj). done.
  - intros Hi. by exists i, x.
Qed.

Lemma list_index_Some x l i :
  EOPatch.list_index x l = Some i ↔
  l !! i = Some x ∧ ∀ j, j < i → l !! j ≠ Some x.
Proof.
  unfold EOPatch.list_index. rewrite fmap_Some. split.
  - intros ([j y] & Hfind & ->). apply list_find_Some in Hfind as (Hj & -> & Hfirst).
    split; [done|]. intros k Hk Hlk. by apply (Hfirst k x).
  - intros [Hi Hfirst]. exists (i, x). split; [|done].
    apply list_find_Some. split; [done|]. split; [done|].
    intros j y Hj Hlt ->. by apply (Hfirst j).
Qed.

Lemma not_elem_of_take (x : datetime) l i :
  x ∉ (take i l) ↔ ∀ j, j < i → l !! j ≠ Some x.
Proof.
  split.
  - intros Hnot j Hj Hl. apply Hnot. apply list_elem_of_lookup. exists j.
    by rewrite lookup_take_lt.
  - intros Hfirst Hin. apply list_elem_of_lookup in Hin as [j Hj].
    apply lookup_take_Some in Hj as [Hj Hlt]. by apply (Hfirst j).
Qed.

Lemma remove_from_patch_idxs_spec own timestamps :
  ∃ removed_idxs,
    EOPatch.remove_from_patch_idxs own timestamps = Some removed_idxs
    ∧ ∀ i t, own !! i = Some t →
        (i ∈ removed_idxs ↔ (t ∉ timestamps) ∧ (t ∉ take i own)).
Proof.
  unfold EOPatch.remove_from_patch_idxs.
  set (removed := EOPatch.remove_from_patch own timestamps).
  assert (Hrem : ∀ x, x ∈ elements removed ↔ x ∈ own ∧ x ∉ timestamps).
  { intros x. unfold removed, EOPatch.remove_from_patch.
    rewrite elem_of_elements, elem_of_difference, !elem_of_list_to_set. done. }
  destruct (mapM (λ rm_date, EOPatch.list_index rm_date own) (elements removed))
    as [r|] eqn:E.
  - exists r. split; [done|]. intros i t Hi.
    apply mapM_Some_1 in E. rewrite not_elem_of_take. split.
    + intros Hin. apply list_elem_of_lookup in Hin as [k Hk].
      destruct (Forall2_lookup_r _ _ _ _ _ E Hk) as (x & Hx & Hidx).
      apply list_index_Some in Hidx as [Hix Hfirst].
      assert (x = t) as -> by congruence.
      split; [|done]. apply (Hrem t). apply list_elem_of_lookup. by exists k.
    + intros [Hnot Hfirst].
      assert (t ∈ elements removed) as Hin.
      { apply Hrem. split; [|done]. apply list_elem_of_lookup. by exists i. }
      apply list_elem_of_lookup in Hin as [k Hk].
      destruct (Forall2_lookup_l _ _ _ _ _ E Hk) as (j & Hj & Hidx).
      apply list_index_Some in Hidx as [Hjt Hjfirst].
      assert (j = i) as ->.
      { destruct (Nat.lt_trichotomy j i) as [Hlt|[->|Hlt]]; [|done|].
        - by destruct (Hfirst j Hlt).
        - by destruct (Hjfirst i Hlt). }
      apply list_elem_of_lookup. by exists k.
  - exfalso. apply mapM_None_1, Exists_exists in E as (x & Hx & Hnone).
    apply Hrem in Hx as [Hx _].
    unfold EOPatch.list_index in Hnone. apply fmap_None in Hnone.
    destruct (list_find_elem_of (λ y, y = x) own x Hx eq_refl) as [? Hs].
    congruence.
Qed.

Lemma good_positions own timestamps removed_idxs :
  EOPatch.remove_from_patch_idxs own timestamps = Some removed_idxs →
  EOPatch.good_timestamp_idxs own removed_idxs = (kept_positions own timestamps).*1
  ∧ EOPatch.good_timestamps own removed_idxs = (kept_positions own timestamps).*2.
Proof.
  intros Hr.
  destruct (remove_from_patch_idxs_spec own timestamps) as (r & Hr' & Hspec).
  assert (r = removed_idxs) as -> by congruence.
  unfold EOPatch.good_timestamp_idxs, EOPatch.good_timestamps, kept_positions.
  assert (filter (λ p : nat * datetime, p.1 ∉ removed_idxs) (EOPatch.enumerate own)
          = filter (λ p : nat * datetime, p.2 ∈ timestamps ∨ p.2 ∈ take p.1 own)
              (EOPatch.enumerate own)) as ->; [|done].
  apply filter_ext_elem_of. intros [i t] Hit. apply elem_of_enumerate in Hit. simpl.
  rewrite (Hspec i t Hit).
  destruct (decide (t ∈ timestamps)), (decide (t ∈ take i own)); tauto.
Qed.

Lemma kept_positions_lookup own timestamps i t :
  (i, t) ∈ kept_positions own timestamps →
  own !! i = Some t.
Proof.
  unfold kept_positions. rewrite list_elem_of_filter, elem_of_enumerate. tauto.
Qed.

(** ** Slicing arrays *)

Lemma take_rows_Some a idxs a' :
  take_rows a idxs = Some a' →
  arr_dtype a' = arr_dtype a
  ∧ arr_shape a' = length idxs :: tail (arr_shape a)
  ∧ arr_buffer a' = concat (row a <$> idxs)
  ∧ arr_ndim a' = arr_ndim a.
Proof.
  unfold take_rows, arr_ndim. destruct (arr_shape a) as [|n rest] eqn:E; [done|].
  destruct (forallb _ idxs); [|done]. intros [= <-]. done.
Qed.

Lemma take_rows_covered a idxs n :
  time_axis_covers a n →
  (∀ idx, idx ∈ idxs → idx < n) →
  is_Some (take_rows a idxs).
Proof.
  unfold time_axis_covers, take_rows. destruct (arr_shape a) as [|rows rest]; [done|].
  intros Hn Hidxs.
  assert (forallb (λ idx, idx <? rows) idxs = true) as ->; [|by eexists].
  apply forallb_forall. intros idx Hin. apply Nat.ltb_lt.
  apply list_elem_of_In in Hin. specialize (Hidxs idx Hin). lia.
Qed.

Lemma accepts_take_rows d a idxs a' :
  take_rows a idxs = Some a' →
  accepts d (VNdarray a') = accepts d (VNdarray a).
Proof.
  intros H. apply take_rows_Some in H as (Hdt & _ & _ & Hnd).
  unfold accepts. by rewrite Hdt, Hnd.
Qed.

Lemma accepts_attributes d d' content :
  _FeatureDict.class d' = _FeatureDict.class d →
  _FeatureDict.feature_type d' = _FeatureDict.feature_type d →
  _FeatureDict.self_ndim d' = _FeatureDict.self_ndim d →
  accepts d' content = accepts d content.
Proof. intros H1 H2 H3. unfold accepts. by rewrite H1, H2, H3. Qed.

Lemma getitem_rows_array value a idxs a' w :
  heap w !! value = Some (OValue (VNdarray a)) →
  take_rows a idxs = Some a' →
  getitem_rows value idxs w = alloc (OValue (VNdarray a')) w.
Proof.
  intros Hv Ht. unfold getitem_rows.
  rewrite (bind_Ok _ _ _ _ _ (deref_Some _ _ _ Hv)). by rewrite Ht.
Qed.

(** ** The loops of [consolidate_timestamps] *)

Lemma set_feature_dict_twice self feature_type d1 d2 :
  EOPatch.set_feature_dict (EOPatch.set_feature_dict self feature_type d1) feature_type d2
  = EOPatch.set_feature_dict self feature_type d2.
Proof. by destruct feature_type. Qed.

Lemma getitem_bare_entry_kind self feature_type d w :
  EOPatch.feature_dict self feature_type = Some d →
  EOPatch.__getitem__ self (Bare feature_type) w = (Ok (PyFeatureDict d, self), w).
Proof.
  intros Hd. unfold EOPatch.__getitem__, EOPatch.__getattribute__, EOPatch.getattr.
  simpl. by rewrite Hd.
Qed.

Lemma feature_dict_entry_kind self feature_type d :
  EOPatch.feature_dict self feature_type = Some d →
  feature_type ∉ [BBOX; TIMESTAMPS].
Proof. destruct feature_type; try done; intros _; by apply (bool_decide_unpack _). Qed.

Lemma foldM_cons {A B} (f : A → B → M A) a b l w :
  foldM f a (b :: l) w = (a' ← f a b; foldM f a' l) w.
Proof. reflexivity. Qed.

Lemma consolidate_entries feature_type idxs : ∀ (l : list (string * loc)) self w d,
  EOPatch.feature_dict self feature_type = Some d →
  NoDup l.*1 →
  (∀ feature_name value, (feature_name, value) ∈ l →
     valid_name feature_name
     ∧ ∃ a, heap w !! value = Some (OValue (VNdarray a))
            ∧ accepts d (VNdarray a) = true
            ∧ is_Some (take_rows a idxs)) →
  ∃ d' w',
    foldM (EOPatch.consolidate_entry feature_type idxs) self l w
    = (Ok (EOPatch.set_feature_dict self feature_type d'), w')
    ∧ _FeatureDict.class d' = _FeatureDict.class d
    ∧ _FeatureDict.feature_type d' = _FeatureDict.feature_type d
    ∧ _FeatureDict.self_ndim d' = _FeatureDict.self_ndim d
    ∧ (∀ feature_name value a a',
         (feature_name, value) ∈ l →
         heap w !! value = Some (OValue (VNdarray a)) →
         take_rows a idxs = Some a' →
         ∃ value', _FeatureDict.items d' !! feature_name = Some value'
                   ∧ heap w' !! value' = Some (OValue (VNdarray a')))
    ∧ (∀ feature_name, feature_name ∉ l.*1 →
         _FeatureDict.items d' !! feature_name = _FeatureDict.items d !! feature_name)
    ∧ (∀ x o, heap w !! x = Some o → heap w' !! x = Some o)
    ∧ backing_store w' = backing_store w
    ∧ calls w' = calls w.
Proof.
  induction l as [|[feature_name value] l IH]; intros self w d Hd Hnodup Hall.
  - exists d, w. simpl. split.
    { unfold mret, M_ret. f_equal. f_equal.
      destruct feature_type; simpl in Hd; try done; injection Hd as <-;
        by destruct self. }
    repeat split; try done. intros ? ? ? ? Hin. inversion Hin.
  - simpl in Hnodup. apply NoDup_cons in Hnodup as [Hfresh Hnodup].
    destruct (Hall feature_name value) as (Hname & a & Hv & Hacc & [a' Ha']); [left|].
    rewrite foldM_cons, bind_unfold. unfold EOPatch.consolidate_entry at 1.
    rewrite bind_unfold, (getitem_rows_array _ _ _ _ _ Hv Ha'), alloc_unfold.
    set (v1 := fresh (dom (heap w))).
    set (w1 := {| heap := <[v1 := OValue (VNdarray a')]> (heap w);
                  backing_store := backing_store w; calls := calls w |}).
    rewrite bind_unfold, (getitem_bare_entry_kind _ _ _ w1 Hd).
    assert (Hv1 : heap w1 !! v1 = Some (OValue (VNdarray a')))
      by (simpl; by rewrite lookup_insert_eq).
    assert (Hacc1 : accepts d (VNdarray a') = true)
      by (by rewrite (accepts_take_rows _ _ _ _ Ha')).
    destruct (setitem_accepted d feature_name v1 (VNdarray a') w1 Hv1 Hname Hacc1)
      as (v' & w2 & Hset & _ & Hsame & _).
    assert (Hst : stored_form d (VNdarray a') = VNdarray a')
      by (unfold stored_form; by destruct (_FeatureDict.class d)).
    destruct (Hsame Hst) as [-> ->].
    rewrite bind_unfold, Hset, ret_unfold. cbv beta iota.
    set (d1 := _FeatureDict.with_items d (<[feature_name := v1]> (_FeatureDict.items d))).
    assert (Hext : ∀ x o, heap w !! x = Some o → heap w1 !! x = Some o).
    { intros x o Hx. simpl. by apply lookup_after_alloc. }
    destruct (IH (EOPatch.set_feature_dict self feature_type d1) w1 d1)
      as (d' & w' & Hfold & Hc & Hf & Hn & Hentries & Hothers & Hext' & Hbs & Hcalls).
    { by apply (feature_dict_set_same _ _ _ d). }
    { done. }
    { intros n v Hin. destruct (Hall n v) as (Hn & b & Hb & Haccb & Hsome); [by right|].
      split; [done|]. exists b. split; [by apply Hext|]. done. }
    exists d', w'. rewrite Hfold, set_feature_dict_twice.
    split; [done|]. split; [done|]. split; [done|]. split; [done|].
    split; [|split; [|split; [|done]]].
    + intros n v b b' Hin Hb Hb'. apply elem_of_cons in Hin as [[= -> ->]|Hin].
      * exists v1. assert (b = a) as -> by congruence.
        assert (b' = a') as -> by congruence.
        split; [|by apply Hext'].
        rewrite Hothers by done. simpl. by rewrite lookup_insert_eq.
      * apply (Hentries n v b b' Hin); [by apply Hext | done].
    + intros n Hn'. simpl in Hn'. apply not_elem_of_cons in Hn' as [Hne Hn'].
      rewrite Hothers by done. simpl. by rewrite lookup_insert_ne.
    + intros x o Hx. by apply Hext', Hext.
Qed.

Lemma consolidate_one_feature_type idxs self feature_type d w :
  EOPatch.feature_dict self feature_type = Some d →
  (∀ feature_name value, _FeatureDict.items d !! feature_name = Some value →
     valid_name feature_name
     ∧ ∃ a, heap w !! value = Some (OValue (VNdarray a))
            ∧ accepts d (VNdarray a) = true
            ∧ is_Some (take_rows a idxs)) →
  ∃ d' w',
    EOPatch.consolidate_feature_type idxs self feature_type w
    = (Ok (EOPatch.set_feature_dict self feature_type d'), w')
    ∧ _FeatureDict.class d' = _FeatureDict.class d
    ∧ _FeatureDict.feature_type d' = _FeatureDict.feature_type d
    ∧ _FeatureDict.self_ndim d' = _FeatureDict.self_ndim d
    ∧ (∀ feature_name value a a',
         _FeatureDict.items d !! feature_name = Some value →
         heap w !! value = Some (OValue (VNdarray a)) →
         take_rows a idxs = Some a' →
         ∃ value', _FeatureDict.items d' !! feature_name = Some value'
                   ∧ heap w' !! value' = Some (OValue (VNdarray a')))
    ∧ (∀ feature_name, _FeatureDict.items d !! feature_name = None →
         _FeatureDict.items d' !! feature_name = None)
    ∧ (∀ x o, heap w !! x = Some o → heap w' !! x = Some o)
    ∧ backing_store w' = backing_store w
    ∧ calls w' = calls w.
Proof.
  intros Hd Hall. unfold EOPatch.consolidate_feature_type.
  rewrite bind_unfold, (getitem_bare_entry_kind _ _ _ w Hd).
  destruct (consolidate_entries feature_type idxs
              (map_to_list (_FeatureDict.items d)) self w d Hd)
    as (d' & w' & Hfold & Hc & Hf & Hn & Hentries & Hothers & Hrest).
  { apply NoDup_fst_map_to_list. }
  { intros n v Hin. apply elem_of_map_to_list in Hin. by apply Hall. }
  exists d', w'. split; [done|]. split; [done|]. split; [done|]. split; [done|].
  split; [|split; [|done]].
  - intros n v a a' Hn' Hv Ha. apply (Hentries n v a a'); [|done|done].
    by apply elem_of_map_to_list.
  - intros n Hnone. rewrite Hothers; [done|].
    intros Hin. apply list_elem_of_fmap in Hin as ([n' v] & -> & Hin).
    apply elem_of_map_to_list in Hin. simpl in Hnone. congruence.
Qed.

Lemma set_feature_dict_scalars self feature_type d :
  EOPatch.bbox (EOPatch.set_feature_dict self feature_type d) = EOPatch.bbox self
  ∧ EOPatch.timestamps (EOPatch.set_feature_dict self feature_type d)
    = EOPatch.timestamps self.
Proof. done. Qed.

Lemma consolidate_feature_types idxs : ∀ (fts : list FeatureType) self w,
  NoDup fts →
  (∀ feature_type, feature_type ∈ fts → feature_type ∉ [BBOX; TIMESTAMPS]) →
  (∀ feature_type d feature_name value,
     feature_type ∈ fts →
     EOPatch.feature_dict self feature_type = Some d →
     _FeatureDict.items d !! feature_name = Some value →
     valid_name feature_name
     ∧ ∃ a, heap w !! value = Some (OValue (VNdarray a))
            ∧ accepts d (VNdarray a) = true
            ∧ is_Some (take_rows a idxs)) →
  ∃ self' w',
    foldM (EOPatch.consolidate_feature_type idxs) self fts w = (Ok self', w')
    ∧ EOPatch.bbox self' = EOPatch.bbox self
    ∧ EOPatch.timestamps self' = EOPatch.timestamps self
    ∧ (∀ feature_type, feature_type ∉ fts →
         EOPatch.feature_dict self' feature_type = EOPatch.feature_dict self feature_type)
    ∧ (∀ feature_type d,
         feature_type ∈ fts →
         EOPatch.feature_dict self feature_type = Some d →
         ∃ d', EOPatch.feature_dict self' feature_type = Some d'
               ∧ _FeatureDict.class d' = _FeatureDict.class d
               ∧ _FeatureDict.feature_type d' = _FeatureDict.feature_type d
               ∧ _FeatureDict.self_ndim d' = _FeatureDict.self_ndim d
               ∧ (∀ feature_name value a a',
                    _FeatureDict.items d !! feature_name = Some value →
                    heap w !! value = Some (OValue (VNdarray a)) →
                    take_rows a idxs = Some a' →
                    ∃ value', _FeatureDict.items d' !! feature_name = Some value'
                              ∧ heap w' !! value' = Some (OValue (VNdarray a')))
               ∧ (∀ feature_name, _FeatureDict.items d !! feature_name = None →
                    _FeatureDict.items d' !! feature_name = None))
    ∧ (∀ x o, heap w !! x = Some o → heap w' !! x = Some o)
    ∧ backing_store w' = backing_store w
    ∧ calls w' = calls w.
Proof.
  induction fts as [|ft fts IH]; intros self w Hnodup Hkinds Hall.
  - exists self, w. split; [done|]. repeat split; try done.
    intros ? ? Hin. inversion Hin.
  - apply NoDup_cons in Hnodup as [Hfresh Hnodup].
    destruct (entry_kind_dict self ft) as (d & Hd & _); [apply Hkinds; left|].
    destruct (consolidate_one_feature_type idxs self ft d w Hd)
      as (d1 & w1 & Hone & Hc1 & Hf1 & Hn1 & Hentries1 & Hnone1 & Hext1 & Hbs1 & Hcalls1).
    { intros n v Hn. apply (Hall ft d n v); [left|done|done]. }
    set (self1 := EOPatch.set_feature_dict self ft d1) in *.
    assert (Hother : ∀ ft', ft' ≠ ft →
              EOPatch.feature_dict self1 ft' = EOPatch.feature_dict self ft')
      by (intros ft' Hne; by apply feature_dict_set_other).
    destruct (IH self1 w1 Hnodup)
      as (self' & w' & Hfold & Hbb & Hts & Hout & Hin & Hext & Hbs & Hcalls).
    { intros ft' Hin. apply Hkinds. by right. }
    { intros ft' d' n v Hin Hd' Hn.
      rewrite Hother in Hd' by (intros ->; done).
      destruct (Hall ft' d' n v) as (Hname & a & Ha & Hacc & Hsome); [by right|done|done|].
      split; [done|]. exists a. split; [by apply Hext1|done]. }
    exists self', w'. rewrite foldM_cons, (bind_Ok _ _ _ _ _ Hone).
    split; [done|]. split; [by rewrite Hbb|]. split; [by rewrite Hts|].
    split; [|split; [|split; [|split; [congruence|congruence]]]].
    + intros ft' Hnot. apply not_elem_of_cons in Hnot as [Hne Hnot].
      rewrite Hout by done. by apply Hother.
    + intros ft' d' Hft' Hd'. apply elem_of_cons in Hft' as [->|Hft'].
      * assert (d' = d) as -> by congruence.
        exists d1. rewrite Hout by done.
        split; [by apply (feature_dict_set_same _ _ _ d)|].
        split; [done|]. split; [done|]. split; [done|]. split; [|done].
        intros n v a a' Hn Hv Ha.
        destruct (Hentries1 n v a a' Hn Hv Ha) as (v' & Hv' & Hheap).
        exists v'. split; [done|]. by apply Hext.
      * assert (ft' ≠ ft) as Hne by (intros ->; done).
        destruct (Hin ft' d' Hft') as (d'' & Hd'' & Hc & Hf & Hn & Hentries & Hnone).
        { by rewrite Hother. }
        exists d''. split; [done|]. split; [done|]. split; [done|]. split; [done|].
        split; [|done].
        intros n v a a' Hn' Hv Ha. apply (Hentries n v a a' Hn'); [|done].
        by apply Hext1.
    + intros x o Hx. by apply Hext, Hext1.
Qed.

Lemma relevant_features_eq :
  EOPatch.relevant_features = [DATA; MASK; SCALAR; LABEL; VECTOR].
Proof. reflexivity. Qed.

Lemma kept_positions_in_range own timestamps idx :
  idx ∈ (kept_positions own timestamps).*1 → idx < length own.
Proof.
  intros Hin. apply list_elem_of_fmap in Hin as ([i t] & -> & Hin).
  apply kept_positions_lookup in Hin. by apply lookup_lt_Some in Hin.
Qed.

Lemma temporal_array_kind_relevant feature_type :
  feature_type ∈ [DATA; MASK; SCALAR; LABEL] →
  feature_type ∈ [DATA; MASK; SCALAR; LABEL; VECTOR] ∧ feature_type ≠ VECTOR.
Proof.
  destruct feature_type; intros H;
    first [ by (split; [apply (bool_decide_unpack _)|])
          | by (apply (bool_decide_pack _) in H; vm_compute in H) ].
Qed.

Lemma relevant_not_vector feature_type :
  feature_type ∈ [DATA; MASK; SCALAR; LABEL; VECTOR] →
  feature_type ≠ VECTOR →
  feature_type ∈ [DATA; MASK; SCALAR; LABEL].
Proof.
  destruct feature_type; intros H Hne;
    first [ by apply (bool_decide_unpack _)
          | done
          | by (apply (bool_decide_pack _) in H; vm_compute in H) ].
Qed.



(** Run on an example: timestamps [t1, t2, t3] consolidated against
    [t1, t3] return {t2}, leave [t1, t3], and the array keeps rows 0 and 2. *)
Example consolidate_three_against_two :
  let a := {| arr_dtype := float_ 32; arr_shape := [3; 1; 1; 2];
              arr_buffer := [10; 11; 20; 21; 30; 31]%Z |} in
  let w := example_world [(0, OValue (VNdarray a))] [] in
  let d := _FeatureDict.with_items (empty_collection DATA) {["bands" := 0]} in
  let self := EOPatch.set_feature_dict (empty_patch None [1; 2; 3]%Z) DATA d in
  let run := EOPatch.consolidate_timestamps self [1; 3]%Z w in
  fst run
  = Ok ({[2%Z]},
        EOPatch.set_feature_dict (empty_patch None [1; 3]%Z) DATA
          (_FeatureDict.with_items (empty_collection DATA) {["bands" := 1]}))
  ∧ heap (snd run) !! 1
    = Some (OValue (VNdarray {| arr_dtype := float_ 32;
                                arr_shape := [2; 1; 1; 2];
                                arr_buffer := [10; 11; 30; 31]%Z |})).
Proof. split; vm_compute; reflexivity. Qed.

(** Nothing ties the time axis of an array to the number of timestamps: on a
    patch with three timestamps whose DATA entry has a single row,
    consolidating against [t1, t3] asks for rows 0 and 2 and raises
    [IndexError]; no set is returned. *)
Lemma consolidate_short_time_axis_raises :
  let a := {| arr_dtype := float_ 32; arr_shape := [1; 1; 1; 2];
              arr_buffer := [10; 11]%Z |} in
  let w := example_world [(0, OValue (VNdarray a))] [] in
  let d := _FeatureDict.with_items (empty_collection DATA) {["bands" := 0]} in
  let self := EOPatch.set_feature_dict (empty_patch None [1; 2; 3]%Z) DATA d in
  typed_collection DATA d
  ∧ valid_name "bands"
  ∧ accepts d (VNdarray a) = true
  ∧ fst (EOPatch.consolidate_timestamps self [1; 3]%Z w) = Raise IndexError
  ∧ ¬ ∃ removed self' w',
        EOPatch.consolidate_timestamps self [1; 3]%Z w = (Ok (removed, self'), w').
Proof.
  intros a w d self.
  split; [done|]. split; [apply valid_name_by_check; [done | reflexivity]|].
  split; [reflexivity|].
  assert (fst (EOPatch.consolidate_timestamps self [1; 3]%Z w) = Raise IndexError)
    as E by (vm_compute; reflexivity).
  split; [exact E|].
  intros (removed & self' & w' & H).
  apply (raised_not_returned _ _ E). by exists (removed, self'), w'.
Qed.

(** Two more ways out of the premises above, run: an entry that is still a
    placeholder is not subscriptable, and a VECTOR entry (a geometry table)
    refuses the key. *)
Example consolidate_placeholder_or_vector_raises :
  let io := {| filesystem := 0; path := "data/bands.npy"; loaded_value := None |} in
  let g := {| gdf_crs := Some 4326; gdf_columns := ["TIMESTAMP"; "geometry"];
              gdf_rows := [[1; 7]; [2; 8]; [3; 9]]%Z |} in
  let w := example_world [(0, OFeatureIO io); (1, OValue (VGeoDataFrame g))] [] in
  let lazy := EOPatch.set_feature_dict (empty_patch None [1; 2; 3]%Z) DATA
                (_FeatureDict.with_items (empty_collection DATA) {["bands" := 0]}) in
  let vectors := EOPatch.set_feature_dict (empty_patch None [1; 2; 3]%Z) VECTOR
                   (_FeatureDict.with_items (empty_collection VECTOR) {["fields" := 1]}) in
  fst (EOPatch.consolidate_timestamps lazy [1; 3]%Z w) = Raise TypeError
  ∧ accepts (empty_collection VECTOR) (VGeoDataFrame g) = true
  ∧ fst (EOPatch.consolidate_timestamps vectors [1; 3]%Z w) = Raise InvalidIndexError.
Proof. repeat split; vm_compute; reflexivity. Qed.

(** ** Consolidation without duplicate timestamps *)

Lemma filter_imap_snd {A} (P : A → Prop) `{∀ x, Decision (P x)} (l : list A) :
  ∀ f : nat → nat,
    (filter (λ p : nat * A, P p.2) (imap (λ i x, (f i, x)) l)).*2 = filter P l.
Proof.
  induction l as [|x l IH]; intros f; [done|].
  change (imap (λ i x0, (f i, x0)) (x :: l))
    with ((f 0, x) :: imap (λ i x0, ((f ∘ S) i, x0)) l).
  rewrite !filter_cons. simpl.
  destruct (decide (P x)); simpl; by rewrite IH.
Qed.

Lemma filter_enumerate_snd {A} (P : A → Prop) `{∀ x, Decision (P x)} (l : list A) :
  (filter (λ p : nat * A, P p.2) (EOPatch.enumerate l)).*2 = filter P l.
Proof. apply (filter_imap_snd P l id). Qed.

Lemma filter_enumerate_by_value {A} (P : A → Prop) (Q : nat * A → Prop)
    `{∀ x, Decision (P x)} `{∀ p, Decision (Q p)} (l : list A) :
  (∀ p, Q p ↔ P p.2) →
  (filter Q (EOPatch.enumerate l)).*2 = filter P l.
Proof.
  intros HQ. rewrite (list_filter_iff Q (λ p : nat * A, P p.2)) by done.
  apply filter_enumerate_snd.
Qed.

(** X2: when the patch's own timestamps have no duplicates, the index
    computation of [consolidate_timestamps] succeeds and keeps exactly the own
    timestamps that occur in the given list, in their order, at exactly their
    positions; a second consolidation against the same list would then remove
    nothing. *)
Theorem consolidate_without_duplicates (own timestamps : list datetime) :
  NoDup own →
  ∃ removed_idxs,
    EOPatch.remove_from_patch_idxs own timestamps = Some removed_idxs
    ∧ EOPatch.good_timestamps own removed_idxs = filter (λ t, t ∈ timestamps) own
    ∧ EOPatch.good_timestamp_idxs own removed_idxs
      = (filter (λ p : nat * datetime, p.2 ∈ timestamps) (EOPatch.enumerate own)).*1
    ∧ EOPatch.remove_from_patch (EOPatch.good_timestamps own removed_idxs) timestamps
      = ∅.
Proof.
  intros Hnodup.
  destruct (remove_from_patch_idxs_spec own timestamps) as (r & Hr & _).
  destruct (good_positions own timestamps r Hr) as [Hidxs Hgood].
  assert (Hkept : kept_positions own timestamps
                  = filter (λ p : nat * datetime, p.2 ∈ timestamps)
                      (EOPatch.enumerate own)).
  { unfold kept_positions. apply filter_ext_elem_of. intros [i t] Hit.
    apply elem_of_enumerate in Hit. simpl. split; [|by left].
    intros [Hin|Hin]; [done|]. exfalso.
    apply list_elem_of_lookup in Hin as [j Hj].
    apply lookup_take_Some in Hj as [Hj Hlt].
    pose proof (NoDup_lookup _ _ _ _ Hnodup Hit Hj). lia. }
  exists r. split; [done|].
  assert (Hts : EOPatch.good_timestamps own r = filter (λ t, t ∈ timestamps) own).
  { rewrite Hgood, Hkept. by apply filter_enumerate_by_value. }
  split; [done|]. split; [by rewrite Hidxs, Hkept|].
  rewrite Hts. unfold EOPatch.remove_from_patch.
  apply set_eq. intros t.
  rewrite elem_of_difference, !elem_of_list_to_set, list_elem_of_filter.
  split; [intros [[? ?] ?]; done | intros Ht; by apply not_elem_of_empty in Ht].
Qed.

Lemma consolidate_without_duplicates_witness :
  ∃ removed_idxs,
    EOPatch.remove_from_patch_idxs [1; 2; 3]%Z [3; 1; 7]%Z = Some removed_idxs
    ∧ EOPatch.good_timestamps [1; 2; 3]%Z removed_idxs
      = filter (λ t, t ∈ [3; 1; 7]%Z) [1; 2; 3]%Z
    ∧ EOPatch.good_timestamp_idxs [1; 2; 3]%Z removed_idxs
      = (filter (λ p : nat * datetime, p.2 ∈ [3; 1; 7]%Z)
           (EOPatch.enumerate [1; 2; 3]%Z)).*1
    ∧ EOPatch.remove_from_patch
        (EOPatch.good_timestamps [1; 2; 3]%Z removed_idxs) [3; 1; 7]%Z = ∅.
Proof.
  apply (consolidate_without_duplicates [1; 2; 3]%Z [3; 1; 7]%Z).
  apply (bool_decide_unpack _). by vm_compute.
Defined.

(** With a duplicate, only the first occurrence of a removed timestamp goes:
    [t2, t2, t1] consolidated against [t1] removes position 0 and still holds
    t2 afterwards. *)
Example consolidate_with_duplicate :
  EOPatch.remove_from_patch_idxs [2; 2; 1]%Z [1]%Z = Some [0]
  ∧ EOPatch.good_timestamp_idxs [2; 2; 1]%Z [0] = [1; 2]
  ∧ EOPatch.good_timestamps [2; 2; 1]%Z [0] = [2; 1]%Z.
Proof. repeat split; vm_compute; reflexivity. Qed.

(** ** What insertion does to the world and to the collection's invariant *)

Lemma only_values_added_refl w : only_values_added w w.
Proof. by repeat split. Qed.

Lemma only_values_added_trans w1 w2 w3 :
  only_values_added w1 w2 → only_values_added w2 w3 → only_values_added w1 w3.
Proof.
  intros (H1 & H2 & H3 & H4) (K1 & K2 & K3 & K4).
  split; [|split; [|split; congruence]].
  - intros l o Hl. by apply K1, H1.
  - intros l io Hl. by apply H2, K2.
Qed.

Lemma only_values_added_alloc w content :
  only_values_added w (alloc (OValue content) w).2.
Proof.
  rewrite alloc_unfold. simpl. split; [|split; [|done]].
  - intros l o Hl. by apply lookup_after_alloc.
  - intros l io Hl. simpl in Hl.
    destruct (decide (l = fresh (dom (heap w)))) as [->|Hne].
    + by rewrite lookup_insert_eq in Hl.
    + by rewrite lookup_insert_ne in Hl.
Qed.

Lemma parse_only_values_added d value o feature_name w r w' :
  _FeatureDict._parse_feature_value d value o feature_name w = (r, w') →
  only_values_added w w'.
Proof.
  unfold _FeatureDict._parse_feature_value.
  destruct (_FeatureDict.class d).
  - destruct o as [[a|s|g|j]|io]; try (intros [= <- <-]; apply only_values_added_refl).
    destruct (_FeatureDict.self_ndim d) as [n|];
      [|intros [= <- <-]; apply only_values_added_refl].
    destruct (bool_decide _); [intros [= <- <-]; apply only_values_added_refl|].
    destruct (_ && _); intros [= <- <-]; apply only_values_added_refl.
  - destruct o as [[a|s|g|j]|io]; rewrite bind_unfold;
      try (simpl; intros [= <- <-]; apply only_values_added_refl).
    + rewrite bind_unfold.
      pose proof (only_values_added_alloc w
                    (VGeoDataFrame (GeoDataFrame_from_series s))) as Hadd.
      destruct (alloc _ w) as [[l|e] w1] eqn:E; [|done]. simpl in Hadd.
      rewrite ret_unfold. cbv beta iota.
      destruct (_ && _); intros [= <- <-]; exact Hadd.
    + simpl. destruct (_ && _); intros [= <- <-]; apply only_values_added_refl.
  - intros [= <- <-]. apply only_values_added_refl.
Qed.

Lemma setitem_only_values_added d feature_name value w r w' :
  _FeatureDict.__setitem__ d feature_name value w = (r, w') →
  only_values_added w w'.
Proof.
  unfold _FeatureDict.__setitem__. rewrite bind_unfold. unfold deref.
  destruct (heap w !! value) as [o|]; [|intros [= <- <-]; apply only_values_added_refl].
  rewrite bind_unfold. unfold _FeatureDict.parsed_unless_FeatureIO.
  destruct (negb (is_FeatureIO o)).
  - destruct (_FeatureDict._parse_feature_value d value o feature_name w)
      as [[v|e] w1] eqn:E; apply parse_only_values_added in E;
      [|by intros [= <- <-]].
    rewrite bind_unfold. unfold _FeatureDict._check_feature_name.
    destruct (_FeatureDict.first_forbidden _); [by intros [= <- <-]|].
    destruct (bool_decide _); by intros [= <- <-].
  - rewrite ret_unfold. cbv beta iota.
    rewrite bind_unfold. unfold _FeatureDict._check_feature_name.
    destruct (_FeatureDict.first_forbidden _);
      [intros [= <- <-]; apply only_values_added_refl|].
    destruct (bool_decide _); intros [= <- <-]; apply only_values_added_refl.
Qed.

Lemma valid_name_dec feature_name : valid_name feature_name ∨ ¬ valid_name feature_name.
Proof.
  destruct (decide (feature_name = "")) as [->|Hne]; [right; by intros [? _]|].
  destruct (_FeatureDict.first_forbidden (String.list_ascii_of_string feature_name))
    as [c|] eqn:E.
  - right. intros [_ Hall]. apply first_forbidden_Some in E as [Hin Hf].
    by apply (Hall c).
  - left. by apply valid_name_by_check.
Qed.

Lemma accepts_stored_form d content :
  accepts d content = true →
  accepts d (stored_form d content) = true
  ∧ stored_form d (stored_form d content) = stored_form d content.
Proof.
  unfold accepts, stored_form.
  destruct (_FeatureDict.class d), content as [a|s|g|j]; try done.
  intros ->. done.
Qed.

Lemma collection_valid_mono w w' d :
  (∀ l o, heap w !! l = Some o → heap w' !! l = Some o) →
  collection_valid w d → collection_valid w' d.
Proof.
  intros Hext Hvalid n v Hn. destruct (Hvalid n v Hn) as (Hname & o & Ho & Hkind).
  split; [done|]. exists o. split; [by apply Hext|done].
Qed.

(** A successful insertion, taken apart. *)
Lemma setitem_Ok_inv d feature_name value w d' w' :
  _FeatureDict.__setitem__ d feature_name value w = (Ok d', w') →
  valid_name feature_name
  ∧ ∃ o value',
      heap w !! value = Some o
      ∧ d' = _FeatureDict.with_items d (<[feature_name := value']> (_FeatureDict.items d))
      ∧ match o with
        | OValue content =>
            accepts d content = true
            ∧ heap w' !! value' = Some (OValue (stored_form d content))
            ∧ (stored_form d content = content → value' = value ∧ w' = w)
        | OFeatureIO _ => value' = value ∧ w' = w
        end.
Proof.
  intros Hset.
  destruct (heap w !! value) as [o|] eqn:Hv.
  2:{ unfold _FeatureDict.__setitem__ in Hset.
      by rewrite (bind_Raise _ _ _ _ _ (deref_None _ _ Hv)) in Hset. }
  destruct (valid_name_dec feature_name) as [Hname|Hname].
  2:{ destruct (setitem_invalid_name d feature_name value o w Hv Hname)
        as (why & w1 & E). congruence. }
  split; [done|]. destruct o as [content|io].
  - destruct (accepts d content) eqn:Hacc.
    + destruct (setitem_accepted d feature_name value content w Hv Hname Hacc)
        as (value' & w1 & E & Hheap & Hsame & _).
      rewrite E in Hset. injection Hset as <- <-.
      by exists (OValue content), value'.
    + destruct (setitem_rejected d feature_name value content w Hv Hacc)
        as (why & w1 & E & _). congruence.
  - rewrite (setitem_FeatureIO d feature_name value io w Hv Hname) in Hset.
    injection Hset as <- <-. by exists (OFeatureIO io), value.
Qed.

Lemma setitem_Ok_valid d feature_name value w d' w' :
  collection_valid w d →
  _FeatureDict.__setitem__ d feature_name value w = (Ok d', w') →
  collection_valid w' d'.
Proof.
  intros Hvalid Hset.
  pose proof (setitem_only_values_added _ _ _ _ _ _ Hset) as Hadd.
  destruct (setitem_Ok_inv _ _ _ _ _ _ Hset) as (Hname & o & value' & Hv & -> & Hkind).
  intros n v Hnv. simpl in Hnv.
  destruct (decide (n = feature_name)) as [->|Hne].
  - rewrite lookup_insert_eq in Hnv. injection Hnv as <-. split; [done|].
    destruct o as [content|io].
    + destruct Hkind as (Hacc & Hheap & _).
      exists (OValue (stored_form d content)). split; [done|].
      apply (accepts_stored_form d content Hacc).
    + destruct Hkind as [-> ->]. by exists (OFeatureIO io).
  - rewrite lookup_insert_ne in Hnv by done.
    destruct (Hvalid n v Hnv) as (Hn' & o' & Ho' & Hk').
    split; [done|]. exists o'. split; [|done]. by apply Hadd.
Qed.

(** X3: a successful insertion keeps the collection's invariant.  If every
    entry of the collection has a valid name and is a placeholder or an
    accepted realized value, the same holds after [__setitem__] returns; the
    collection keeps its class, feature type and rank, holds the new entry
    under the given name and every other entry as before; and the world has
    at most gained realized values, with no read of the backing store. *)
Theorem setitem_keeps_invariant
    (d : _FeatureDict.t) (feature_name : string) (value : loc) (w : world)
    (d' : _FeatureDict.t) (w' : world) :
  collection_valid w d →
  _FeatureDict.__setitem__ d feature_name value w = (Ok d', w') →
  collection_valid w' d'
  ∧ only_values_added w w'
  ∧ _FeatureDict.class d' = _FeatureDict.class d
  ∧ _FeatureDict.feature_type d' = _FeatureDict.feature_type d
  ∧ _FeatureDict.self_ndim d' = _FeatureDict.self_ndim d
  ∧ is_Some (_FeatureDict.items d' !! feature_name)
  ∧ ∀ other, other ≠ feature_name →
      _FeatureDict.items d' !! other = _FeatureDict.items d !! other.
Proof.
  intros Hvalid Hset.
  pose proof (setitem_only_values_added _ _ _ _ _ _ Hset) as Hadd.
  destruct (setitem_attributes _ _ _ _ _ _ Hset) as (Hc & Hf & Hn).
  destruct (setitem_Ok_inv _ _ _ _ _ _ Hset) as (Hname & o & value' & Hv & -> & Hkind).
  split; [by apply (setitem_Ok_valid _ _ _ _ _ _ Hvalid Hset)|].
  split; [done|split; [done|split; [done|split; [done|split]]]].
  - simpl. rewrite lookup_insert_eq. by eexists.
  - intros other Hne. simpl. by rewrite lookup_insert_ne.
Qed.

Lemma setitem_keeps_invariant_witness :
  let old := {| arr_dtype := int_ 8; arr_shape := [2; 1]; arr_buffer := [0; 1]%Z |} in
  let new := {| arr_dtype := bool_; arr_shape := [2; 3]; arr_buffer := [1; 0; 1; 0; 1; 0]%Z |} in
  let w := example_world [(0, OValue (VNdarray old)); (1, OValue (VNdarray new))] [] in
  let d := _FeatureDict.with_items (empty_collection LABEL) {["crop" := 0]} in
  let d' := _FeatureDict.with_items (empty_collection LABEL) {["crop" := 0; "water" := 1]} in
  collection_valid w d'
  ∧ only_values_added w w
  ∧ _FeatureDict.class d' = _FeatureDict.class d
  ∧ _FeatureDict.feature_type d' = _FeatureDict.feature_type d
  ∧ _FeatureDict.self_ndim d' = _FeatureDict.self_ndim d
  ∧ is_Some (_FeatureDict.items d' !! "water")
  ∧ ∀ other, other ≠ "water" →
      _FeatureDict.items d' !! other = _FeatureDict.items d !! other.
Proof.
  intros old new w d d'.
  apply (setitem_keeps_invariant d "water" 1 w d' w).
  - intros n v Hn. simpl in Hn. apply lookup_singleton_Some in Hn as [<- <-].
    split; [apply valid_name_by_check; [done | reflexivity]|].
    exists (OValue (VNdarray old)). by repeat split.
  - vm_compute. reflexivity.
Defined.

(** ** The constructors *)

Lemma init_fold_valid : ∀ (l : list (string * loc)) d w d' w',
  collection_valid w d →
  foldM (λ self '(feature_name, value), _FeatureDict.__setitem__ self feature_name value)
        d l w = (Ok d', w') →
  collection_valid w' d'
  ∧ only_values_added w w'
  ∧ ∀ n, is_Some (_FeatureDict.items d' !! n)
         ↔ is_Some (_FeatureDict.items d !! n) ∨ n ∈ l.*1.
Proof.
  induction l as [|[n v] l IH]; intros d w d' w' Hvalid.
  - intros [= <- <-]. split; [done|]. split; [apply only_values_added_refl|].
    intros n. split; [by left|]. intros [?|Hin]; [done|inversion Hin].
  - rewrite foldM_cons, bind_unfold.
    destruct (_FeatureDict.__setitem__ d n v w) as [[d1|e] w1] eqn:E; [|done].
    intros Hfold.
    pose proof (setitem_Ok_valid _ _ _ _ _ _ Hvalid E) as Hvalid1.
    pose proof (setitem_only_values_added _ _ _ _ _ _ E) as Hadd1.
    destruct (setitem_Ok_inv _ _ _ _ _ _ E) as (_ & o & v' & _ & Hd1 & _).
    destruct (IH d1 w1 d' w' Hvalid1 Hfold) as (Hvalid' & Hadd' & Hdom).
    split; [done|]. split; [by apply (only_values_added_trans w w1 w')|].
    intros m. rewrite Hdom, Hd1. simpl. rewrite elem_of_cons.
    destruct (decide (m = n)) as [->|Hne].
    + rewrite lookup_insert_eq. split; [intros _; right; by left|].
      intros _. left. by eexists.
    + rewrite lookup_insert_ne by done. split; [|intros [?|[?|?]]; [by left|done|by right]].
      intros [?|?]; [by left|right; by right].
Qed.

Lemma elem_of_fst_map_to_list (m : gmap string loc) n :
  n ∈ (map_to_list m).*1 ↔ is_Some (m !! n).
Proof.
  rewrite list_elem_of_fmap. split.
  - intros ([n' v] & -> & Hin). apply elem_of_map_to_list in Hin. by eexists.
  - intros [v Hv]. exists (n, v). split; [done|]. by apply elem_of_map_to_list.
Qed.

(** X4: a collection that [_create_feature_dict] returns is a typed collection
    of the requested kind that satisfies its invariant: it holds exactly the
    given names, each with a valid name and a placeholder or an accepted
    realized value.  The kind is an entry kind (BBOX and TIMESTAMPS have no
    collection), and building it neither reads the backing store nor touches
    an existing object. *)
Theorem created_collection_is_valid
    (feature_type : FeatureType) (value : gmap string loc) (w : world)
    (d : _FeatureDict.t) (w' : world) :
  _create_feature_dict feature_type value w = (Ok d, w') →
  typed_collection feature_type d
  ∧ collection_valid w' d
  ∧ only_values_added w w'
  ∧ (∀ n, is_Some (_FeatureDict.items d !! n) ↔ is_Some (value !! n))
  ∧ feature_type ∉ [BBOX; TIMESTAMPS].
Proof.
  intros Hnew. split; [by apply (create_feature_dict_typed _ _ _ _ _ Hnew)|].
  assert (Hinit : ∃ d0, _FeatureDict.items d0 = ∅
                        ∧ _FeatureDict.__init__ d0 value w = (Ok d, w')
                        ∧ feature_type ∉ [BBOX; TIMESTAMPS]).
  { unfold _create_feature_dict, _FeatureDict.new in Hnew.
    destruct (is_vector feature_type) eqn:Hv; simpl in Hnew.
    - eexists. split; [|split; [exact Hnew|]]; [done|].
      destruct feature_type; try done; by apply (bool_decide_unpack _).
    - case_bool_decide as Hm.
      + eexists. split; [|split; [exact Hnew|]]; [done|].
        subst. by apply (bool_decide_unpack _).
      + destruct (ndim feature_type) as [k|] eqn:Hk; [|done].
        eexists. split; [|split; [exact Hnew|]]; [done|].
        destruct feature_type; try done; by apply (bool_decide_unpack _). }
  destruct Hinit as (d0 & Hempty & Hinit & Hkind).
  destruct (init_fold_valid (map_to_list value) d0 w d w') as (Hvalid & Hadd & Hdom).
  { intros n v Hn. by rewrite Hempty, lookup_empty in Hn. }
  { exact Hinit. }
  split; [done|]. split; [done|]. split; [|done].
  intros n. rewrite Hdom, Hempty, lookup_empty, elem_of_fst_map_to_list.
  split; [intros [[? ?]|?]; done | by right].
Qed.

Lemma created_collection_is_valid_witness :
  let a := {| arr_dtype := float_ 64; arr_shape := [4]; arr_buffer := [1; 2; 3; 4]%Z |} in
  let io := {| filesystem := 0; path := "scalar_timeless/x.npy"; loaded_value := None |} in
  let w := example_world [(0, OValue (VNdarray a)); (1, OFeatureIO io)] [] in
  let d := _FeatureDict.with_items (empty_collection SCALAR_TIMELESS)
             {["mean" := 0; "lazy" := 1]} in
  typed_collection SCALAR_TIMELESS d
  ∧ collection_valid w d
  ∧ only_values_added w w
  ∧ (∀ n, is_Some (_FeatureDict.items d !! n)
          ↔ is_Some (({["mean" := 0; "lazy" := 1]} : gmap string loc) !! n))
  ∧ SCALAR_TIMELESS ∉ [BBOX; TIMESTAMPS].
Proof.
  intros a io w d.
  apply (created_collection_is_valid SCALAR_TIMELESS {["mean" := 0; "lazy" := 1]} w d w).
  vm_compute. reflexivity.
Defined.

Lemma collection_valid_attributes w d d' :
  _FeatureDict.class d' = _FeatureDict.class d →
  _FeatureDict.feature_type d' = _FeatureDict.feature_type d →
  _FeatureDict.self_ndim d' = _FeatureDict.self_ndim d →
  (∀ n v, _FeatureDict.items d' !! n = Some v → _FeatureDict.items d !! n = Some v) →
  collection_valid w d → collection_valid w d'.
Proof.
  intros Hc Hf Hn Hsub Hvalid n v Hnv.
  destruct (Hvalid n v (Hsub n v Hnv)) as (Hname & o & Ho & Hkind).
  split; [done|]. exists o. split; [done|].
  destruct o as [content|io]; [|done].
  unfold accepts, stored_form in *. by rewrite Hc, Hf, Hn.
Qed.

(** Inserting an entry that already satisfies the invariant stores the very
    reference and leaves the world alone. *)
Lemma setitem_valid_entry d feature_name value w :
  valid_name feature_name →
  (∃ o, heap w !! value = Some o
        ∧ match o with
          | OValue content => accepts d content = true ∧ stored_form d content = content
          | OFeatureIO _ => True
          end) →
  _FeatureDict.__setitem__ d feature_name value w
  = (Ok (_FeatureDict.with_items d (<[feature_name := value]> (_FeatureDict.items d))), w).
Proof.
  intros Hname (o & Hv & Hkind). destruct o as [content|io].
  - destruct Hkind as [Hacc Hst].
    destruct (setitem_accepted d feature_name value content w Hv Hname Hacc)
      as (v' & w' & E & _ & Hsame & _).
    by destruct (Hsame Hst) as [-> ->].
  - by apply (setitem_FeatureIO _ _ _ io).
Qed.

Lemma init_fold_exact : ∀ (l : list (string * loc)) d w,
  NoDup l.*1 →
  (∀ n v, (n, v) ∈ l →
     valid_name n
     ∧ ∃ o, heap w !! v = Some o
            ∧ match o with
              | OValue content => accepts d content = true ∧ stored_form d content = content
              | OFeatureIO _ => True
              end) →
  ∃ d', foldM (λ self '(feature_name, value), _FeatureDict.__setitem__ self feature_name value)
              d l w = (Ok d', w)
        ∧ _FeatureDict.class d' = _FeatureDict.class d
        ∧ _FeatureDict.feature_type d' = _FeatureDict.feature_type d
        ∧ _FeatureDict.self_ndim d' = _FeatureDict.self_ndim d
        ∧ ∀ n, _FeatureDict.items d' !! n
               = match (list_to_map l : gmap string loc) !! n with
                 | Some v => Some v
                 | None => _FeatureDict.items d !! n
                 end.
Proof.
  induction l as [|[n v] l IH]; intros d w Hnodup Hall.
  - exists d. by repeat split.
  - simpl in Hnodup. apply NoDup_cons in Hnodup as [Hfresh Hnodup].
    destruct (Hall n v) as [Hname Hentry]; [left|].
    rewrite foldM_cons, bind_unfold, (setitem_valid_entry d n v w Hname Hentry).
    set (d1 := _FeatureDict.with_items d (<[n := v]> (_FeatureDict.items d))).
    destruct (IH d1 w Hnodup) as (d' & Hfold & Hc & Hf & Hn & Hitems).
    { intros n' v' Hin. by apply Hall; right. }
    exists d'. split; [done|]. split; [done|]. split; [done|]. split; [done|].
    intros m. rewrite Hitems. simpl.
    destruct (decide (m = n)) as [->|Hne].
    + rewrite lookup_insert_eq.
      by rewrite (not_elem_of_list_to_map_1 _ _ Hfresh), lookup_insert_eq.
    + by rewrite !lookup_insert_ne.
Qed.

(** X5: [_create_feature_dict] on the kinds BBOX and TIMESTAMPS raises
    [ValueError] whatever it is given (they are no numpy kinds); on an entry
    kind, given items that all satisfy the invariant of that kind (valid
    names, placeholders or accepted realized values), it returns the typed
    collection holding exactly the given items and leaves the world as it
    is. *)
Theorem create_feature_dict_from_valid_items
    (feature_type : FeatureType) (value : gmap string loc) (w : world) :
  (feature_type ∈ [BBOX; TIMESTAMPS] →
   _create_feature_dict feature_type value w
   = (Raise (ValueError NotNumpyFeatureType), w))
  ∧ (feature_type ∉ [BBOX; TIMESTAMPS] →
     collection_valid w (_FeatureDict.with_items (empty_collection feature_type) value) →
     _create_feature_dict feature_type value w
     = (Ok (_FeatureDict.with_items (empty_collection feature_type) value), w)).
Proof.
  split.
  - intros Hft. apply elem_of_cons in Hft as [->|Hft]; [done|].
    apply elem_of_cons in Hft as [->|Hft]; [done|]. inversion Hft.
  - intros Hft Hvalid.
    assert (Hnew : _create_feature_dict feature_type value w
                   = _FeatureDict.__init__ (empty_collection feature_type) value w).
    { destruct feature_type; try reflexivity; exfalso; apply Hft;
        by apply (bool_decide_unpack _). }
    rewrite Hnew. unfold _FeatureDict.__init__.
    destruct (init_fold_exact (map_to_list value) (empty_collection feature_type) w)
      as (d' & Hfold & Hc & Hf & Hn & Hitems).
    { apply NoDup_fst_map_to_list. }
    { intros n v Hin. apply elem_of_map_to_list in Hin. by apply (Hvalid n v). }
    rewrite Hfold. f_equal. f_equal.
    destruct d' as [c f k m]. simpl in *. subst c f k.
    unfold _FeatureDict.with_items. simpl. f_equal.
    apply map_eq. intros n. rewrite Hitems, list_to_map_to_list, lookup_empty.
    by destruct (value !! n).
Qed.

Lemma create_feature_dict_from_valid_items_witness :
  let g := {| gdf_crs := Some 4326; gdf_columns := ["TIMESTAMP"; "geometry"];
              gdf_rows := [[1; 7]]%Z |} in
  let w := example_world [(0, OValue (VGeoDataFrame g))] [] in
  _create_feature_dict TIMESTAMPS {["fields" := 0]} w
  = (Raise (ValueError NotNumpyFeatureType), w)
  ∧ _create_feature_dict VECTOR {["fields" := 0]} w
    = (Ok (_FeatureDict.with_items (empty_collection VECTOR) {["fields" := 0]}), w).
Proof.
  intros g w. split.
  - apply (create_feature_dict_from_valid_items TIMESTAMPS {["fields" := 0]} w).
    by apply (bool_decide_unpack _).
  - apply (create_feature_dict_from_valid_items VECTOR {["fields" := 0]} w).
    + by apply (bool_decide_unpack _).
    + intros n v Hn. simpl in Hn. apply lookup_singleton_Some in Hn as [<- <-].
      split; [apply valid_name_by_check; [done | reflexivity]|].
      exists (OValue (VGeoDataFrame g)). by repeat split.
Defined.

(** ** A GeoSeries given to a geometry collection *)

(** X6: a geometry collection turns an inserted GeoSeries into a new table
    with the series' CRS and the single column "geometry", one row per
    geometry, and stores the new table, not the series.  That table has no
    timestamp column, so a VECTOR collection refuses every GeoSeries with
    [ValueError], while any other geometry collection stores the table under
    the (valid) name; the series object stays as it was. *)
Theorem insert_geoseries
    (d : _FeatureDict.t) (feature_name : string) (value : loc) (s : GeoSeries)
    (w : world) :
  _FeatureDict.class d = _FeatureDictGeoDf →
  heap w !! value = Some (OValue (VGeoSeries s)) →
  valid_name feature_name →
  let table := {| gdf_crs := gs_crs s; gdf_columns := ["geometry"];
                  gdf_rows := (λ g, [g]) <$> gs_geometry s |} in
  let new := fresh (dom (heap w)) in
  let w' := {| heap := <[new := OValue (VGeoDataFrame table)]> (heap w);
               backing_store := backing_store w; calls := calls w |} in
  heap w !! new = None
  ∧ new ≠ value
  ∧ heap w' !! value = Some (OValue (VGeoSeries s))
  ∧ (_FeatureDict.feature_type d = VECTOR →
     _FeatureDict.__setitem__ d feature_name value w
     = (Raise (ValueError MissingTimestampColumn), w'))
  ∧ (_FeatureDict.feature_type d ≠ VECTOR →
     _FeatureDict.__setitem__ d feature_name value w
     = (Ok (_FeatureDict.with_items d (<[feature_name := new]> (_FeatureDict.items d))),
        w')).
Proof.
  intros Hcls Hv Hname table new w'.
  assert (Hnew : heap w !! new = None) by apply fresh_unallocated.
  assert (Hne : new ≠ value) by (intros E; rewrite E in Hnew; congruence).
  split; [done|]. split; [done|].
  split; [simpl; by rewrite lookup_insert_ne|].
  rewrite (setitem_unfold _ _ _ _ _ Hv).
  unfold _FeatureDict.parsed_unless_FeatureIO, _FeatureDict._parse_feature_value.
  simpl. rewrite Hcls, !bind_unfold, alloc_unfold, ret_unfold. cbv beta iota.
  fold new table w'. split.
  - intros Hft. by rewrite Hft.
  - intros Hft. rewrite (bool_decide_eq_false_2 _ Hft). simpl.
    by rewrite bind_unfold, check_feature_name_valid.
Qed.

Lemma insert_geoseries_witness :
  let s := {| gs_crs := Some 4326; gs_geometry := [7; 8]%Z |} in
  let w := example_world [(0, OValue (VGeoSeries s))] [] in
  let table := {| gdf_crs := Some 4326; gdf_columns := ["geometry"];
                  gdf_rows := [[7]; [8]]%Z |} in
  let w' := {| heap := <[1 := OValue (VGeoDataFrame table)]> (heap w);
               backing_store := backing_store w; calls := calls w |} in
  _FeatureDict.__setitem__ (empty_collection VECTOR) "fields" 0 w
  = (Raise (ValueError MissingTimestampColumn), w')
  ∧ _FeatureDict.__setitem__ (empty_collection VECTOR_TIMELESS) "fields" 0 w
    = (Ok (_FeatureDict.with_items (empty_collection VECTOR_TIMELESS) {["fields" := 1]}),
       w').
Proof.
  intros s w table w'.
  assert (Hname : valid_name "fields")
    by (apply valid_name_by_check; [done | reflexivity]).
  split.
  - refine (proj1 (proj2 (proj2 (proj2
              (insert_geoseries (empty_collection VECTOR) "fields" 0 s w
                 eq_refl eq_refl Hname)))) eq_refl).
  - refine (proj2 (proj2 (proj2 (proj2
              (insert_geoseries (empty_collection VECTOR_TIMELESS) "fields" 0 s w
                 eq_refl eq_refl Hname)))) _).
    by vm_compute.
Defined.

(** ** Insert, read, delete *)

Lemma delitem_present d feature_name value w :
  _FeatureDict.items d !! feature_name = Some value →
  _FeatureDict.__delitem__ d feature_name w
  = (Ok (_FeatureDict.with_items d (delete feature_name (_FeatureDict.items d))), w).
Proof. intros H. unfold _FeatureDict.__delitem__. by rewrite H. Qed.

Lemma delitem_absent d feature_name w :
  _FeatureDict.items d !! feature_name = None →
  _FeatureDict.__delitem__ d feature_name w = (Raise KeyError, w).
Proof. intros H. unfold _FeatureDict.__delitem__. by rewrite H. Qed.

(** X7: inserting, under a valid name, a realized value that the collection
    accepts and keeps as it is stores that very object: both kinds of read
    return the same reference and change nothing; deleting the name afterwards
    gives back the collection without it (the collection as it was before, if
    the name was new), after which reading or deleting the name again raises
    [KeyError].  The world is the same throughout. *)
Theorem insert_read_delete
    (d : _FeatureDict.t) (feature_name : string) (ref : loc) (content : value)
    (w : world) :
  heap w !! ref = Some (OValue content) →
  valid_name feature_name →
  accepts d content = true →
  stored_form d content = content →
  ∃ d1 d2,
    _FeatureDict.__setitem__ d feature_name ref w = (Ok d1, w)
    ∧ (∀ load, _FeatureDict.__getitem__ d1 feature_name load w = (Ok (ref, d1), w))
    ∧ _FeatureDict.__delitem__ d1 feature_name w = (Ok d2, w)
    ∧ _FeatureDict.items d2 = delete feature_name (_FeatureDict.items d)
    ∧ (_FeatureDict.items d !! feature_name = None → d2 = d)
    ∧ (∀ load, _FeatureDict.__getitem__ d2 feature_name load w = (Raise KeyError, w))
    ∧ _FeatureDict.__delitem__ d2 feature_name w = (Raise KeyError, w).
Proof.
  intros Hv Hname Hacc Hst.
  set (d1 := _FeatureDict.with_items d (<[feature_name := ref]> (_FeatureDict.items d))).
  set (d2 := _FeatureDict.with_items d1 (delete feature_name (_FeatureDict.items d1))).
  assert (H1 : _FeatureDict.items d1 !! feature_name = Some ref)
    by (simpl; by rewrite lookup_insert_eq).
  assert (H2 : _FeatureDict.items d2 = delete feature_name (_FeatureDict.items d))
    by (simpl; by rewrite delete_insert_eq).
  assert (H3 : _FeatureDict.items d2 !! feature_name = None)
    by (rewrite H2; by rewrite lookup_delete_eq).
  exists d1, d2. split.
  { apply setitem_valid_entry; [done|]. by exists (OValue content). }
  split; [intros load; by apply (getitem_realized _ _ _ content)|].
  split; [by apply (delitem_present _ _ ref)|].
  split; [done|]. split; [|split].
  - intros Hnone. destruct d as [c f k m]. unfold d2, d1, _FeatureDict.with_items.
    simpl in *. f_equal. by rewrite delete_insert_eq, delete_id.
  - intros load. by apply getitem_absent.
  - by apply delitem_absent.
Qed.

Lemma insert_read_delete_witness :
  let a := {| arr_dtype := uint 8; arr_shape := [2; 2; 1]; arr_buffer := [0; 1; 1; 0]%Z |} in
  let w := example_world [(0, OValue (VNdarray a))] [] in
  let d := empty_collection MASK_TIMELESS in
  ∃ d1 d2,
    _FeatureDict.__setitem__ d "water" 0 w = (Ok d1, w)
    ∧ (∀ load, _FeatureDict.__getitem__ d1 "water" load w = (Ok (0, d1), w))
    ∧ _FeatureDict.__delitem__ d1 "water" w = (Ok d2, w)
    ∧ _FeatureDict.items d2 = delete "water" (_FeatureDict.items d)
    ∧ (_FeatureDict.items d !! "water" = None → d2 = d)
    ∧ (∀ load, _FeatureDict.__getitem__ d2 "water" load w = (Raise KeyError, w))
    ∧ _FeatureDict.__delitem__ d2 "water" w = (Raise KeyError, w).
Proof.
  intros a w d.
  apply (insert_read_delete d "water" 0 (VNdarray a) w).
  - reflexivity.
  - apply valid_name_by_check; [done | reflexivity].
  - reflexivity.
  - reflexivity.
Defined.

(** ** Entries of a patch: assignment, read, membership, deletion *)

Lemma setitem_entry_unfold self feature_type d feature_name ref w :
  EOPatch.feature_dict self feature_type = Some d →
  EOPatch.__setitem__ self (Pair feature_type (Name feature_name)) (PyRef ref) w
  = (d' ← _FeatureDict.__setitem__ d feature_name ref;
     mret (EOPatch.set_feature_dict self feature_type d')) w.
Proof.
  intros Hd. unfold EOPatch.__setitem__, EOPatch.__setattr__, EOPatch.getattr.
  simpl. by rewrite Hd.
Qed.

Lemma getitem_entry_unfold self feature_type d feature_name w :
  EOPatch.feature_dict self feature_type = Some d →
  EOPatch.__getitem__ self (Pair feature_type (Name feature_name)) w
  = ('(v, d') ← _FeatureDict.__getitem__ d feature_name true;
     mret (PyRef v, EOPatch.set_feature_dict self feature_type d')) w.
Proof.
  intros Hd. unfold EOPatch.__getitem__, EOPatch.__getattribute__, EOPatch.getattr.
  simpl. by rewrite Hd.
Qed.

Lemma contains_entry self feature_type d fname w :
  EOPatch.feature_dict self feature_type = Some d →
  EOPatch.__contains__ self (Pair feature_type fname) w
  = (Ok (EOPatch.name_in fname d, self), w).
Proof.
  intros Hd. unfold EOPatch.__contains__.
  rewrite bool_decide_eq_false_2 by (by apply (feature_dict_entry_kind self _ d)).
  by rewrite bind_unfold, (getitem_bare_entry_kind _ _ _ w Hd).
Qed.

Lemma set_feature_dict_same self feature_type d :
  EOPatch.feature_dict self feature_type = Some d →
  EOPatch.set_feature_dict self feature_type d = self.
Proof.
  destruct self, feature_type; simpl; intros [= <-]; reflexivity.
Qed.









(** ** The enumeration: values, names and the deprecated alias *)

Ltac by_kind := apply (bool_decide_unpack _); by vm_compute.

Lemma member_of_value_Some value member :
  member_of_value value = Some member ↔ FeatureType_value member = value.
Proof.
  unfold member_of_value. rewrite fmap_Some. split.
  - intros ([i m] & Hfind & ->). by apply list_find_Some in Hfind as (_ & ? & _).
  - intros <-. destruct member; by eexists (_, _).
Qed.

Lemma member_of_name_Some name member :
  member_of_name name = Some member ↔ FeatureType_name member = name.
Proof.
  unfold member_of_name. rewrite fmap_Some. split.
  - intros ([i m] & Hfind & ->). by apply list_find_Some in Hfind as (_ & ? & _).
  - intros <-. destruct member; by eexists (_, _).
Qed.

(** X13: every member is found again from its value and from its name, so
    values and names are pairwise distinct; the call [FeatureType(value)]
    accepts a string exactly when, after replacing the deprecated
    "timestamp", it is the value of a member, so "timestamp" gives
    TIMESTAMPS (and the name "TIMESTAMP" gives TIMESTAMPS too); [has_value]
    does not make that replacement: it holds exactly for the thirteen values,
    and not for "timestamp". *)
Theorem feature_type_by_value_and_name (member : FeatureType) (value : string) :
  FeatureType_call (FeatureType_value member) = Some member
  ∧ FeatureType_getitem (FeatureType_name member) = Some member
  ∧ (∀ other, FeatureType_value other = FeatureType_value member → other = member)
  ∧ (∀ other, FeatureType_name other = FeatureType_name member → other = member)
  ∧ (FeatureType_call value = Some member
     ↔ FeatureType_value member = value ∨ (value = "timestamp" ∧ member = TIMESTAMPS))
  ∧ (FeatureType_getitem value = Some member
     ↔ FeatureType_name member = value ∨ (value = "TIMESTAMP" ∧ member = TIMESTAMPS))
  ∧ (has_value value = true ↔ ∃ m, FeatureType_value m = value)
  ∧ FeatureType_call "timestamp" = Some TIMESTAMPS
  ∧ has_value "timestamp" = false.
Proof.
  split; [by destruct member|]. split; [by destruct member|].
  split; [intros other; by destruct other, member|].
  split; [intros other; by destruct other, member|].
  split; [|split; [|split; [|done]]].
  - unfold FeatureType_call, _warn_and_adjust. rewrite member_of_value_Some.
    destruct (decide (value = "timestamp")) as [->|Hne1].
    { simpl. split; [intros H; right; by destruct member|].
      intros [H|[_ ->]]; [by destruct member|done]. }
    destruct (decide (value = "TIMESTAMP")) as [->|Hne2].
    { simpl. split; [by destruct member|]. intros [H|[? _]]; [by destruct member|done]. }
    rewrite bool_decide_eq_false_2.
    + split; [by left|]. by intros [?|[? _]].
    + intros Hin. apply elem_of_cons in Hin as [?|Hin]; [done|].
      apply elem_of_cons in Hin as [?|Hin]; [done|]. inversion Hin.
  - unfold FeatureType_getitem, _warn_and_adjust. rewrite member_of_name_Some.
    destruct (decide (value = "TIMESTAMP")) as [->|Hne2].
    { simpl. split; [intros H; right; by destruct member|].
      intros [H|[_ ->]]; [by destruct member|done]. }
    destruct (decide (value = "timestamp")) as [->|Hne1].
    { simpl. split; [by destruct member|]. intros [H|[? _]]; [by destruct member|done]. }
    rewrite bool_decide_eq_false_2.
    + split; [by left|]. by intros [?|[? _]].
    + intros Hin. apply elem_of_cons in Hin as [?|Hin]; [done|].
      apply elem_of_cons in Hin as [?|Hin]; [done|]. inversion Hin.
  - unfold has_value. rewrite bool_decide_eq_true. split.
    + intros [m Hm]. exists m. by apply member_of_value_Some.
    + intros [m Hm]. exists m. by apply member_of_value_Some.
Qed.

(** X14: the predicates of a feature type agree with each other and with the
    deprecated [FeatureTypeSet] collections.  A kind has a rank exactly when
    it is an array kind, and the rank is 4, 3, 2 or 1 exactly on the four
    RASTER_TYPES_nD sets; [is_timeless], computed as "neither temporal nor
    meta", holds exactly on TIMELESS_TYPES; images are the array kinds of rank
    3 or 4; discrete kinds are array kinds; vector kinds are spatial and are
    no array kinds; every kind is exactly one of array, vector or meta; and
    the kinds with a dictionary are all but BBOX and TIMESTAMPS. *)
Theorem feature_type_taxonomy (self : FeatureType) :
  (is_Some (ndim self) ↔ is_array self = true)
  ∧ (ndim self = Some 4 ↔ self ∈ FeatureTypeSet.RASTER_TYPES_4D)
  ∧ (ndim self = Some 3 ↔ self ∈ FeatureTypeSet.RASTER_TYPES_3D)
  ∧ (ndim self = Some 2 ↔ self ∈ FeatureTypeSet.RASTER_TYPES_2D)
  ∧ (ndim self = Some 1 ↔ self ∈ FeatureTypeSet.RASTER_TYPES_1D)
  ∧ (is_timeless self = true ↔ self ∈ FeatureTypeSet.TIMELESS_TYPES)
  ∧ (is_temporal self = true ↔ self ∈ FeatureTypeSet.TEMPORAL_TYPES)
  ∧ (is_image self = true ↔ ndim self = Some 3 ∨ ndim self = Some 4)
  ∧ (is_discrete self = true → is_array self = true)
  ∧ (is_vector self = true → is_spatial self = true ∧ is_array self = false)
  ∧ (is_array self = true ∧ is_vector self = false ∧ is_meta self = false
     ∨ is_array self = false ∧ is_vector self = true ∧ is_meta self = false
     ∨ is_array self = false ∧ is_vector self = false ∧ is_meta self = true)
  ∧ (has_dict self = true ↔ self ∉ [BBOX; TIMESTAMPS])
  ∧ (has_dict self = true ↔ self ∈ FeatureTypeSet.DICT_TYPES).
Proof.
  repeat split;
    destruct self;
    first [ by vm_compute
          | by_kind
          | by eexists
          | by (intros [? H]; vm_compute in H)
          | by (intros H; vm_compute in H)
          | by (intros H; apply (bool_decide_pack _) in H; vm_compute in H)
          | by (intros H; exfalso; apply H; by_kind)
          | by (intros [H|H]; vm_compute in H)
          | by (left; vm_compute)
          | by (right; vm_compute)
          | by (left; repeat split; vm_compute)
          | by (right; left; repeat split; vm_compute)
          | by (right; right; repeat split; vm_compute) ].
Qed.

(** ** Generated test patches *)



Lemma generated_data_shape depth ftype timestamps config samples :
  is_array ftype = true →
  let a := testing._generate_feature_data samples ftype
             (testing._get_feature_shape depth ftype timestamps config) config in
  accepts (empty_collection ftype) (VNdarray a) = true
  ∧ (is_temporal ftype = true → time_axis_covers a (length timestamps)).
Proof.
  intros Harr. cbv zeta. unfold testing._get_feature_shape.
  destruct (testing.raster_shape config) as [height width].
  destruct ftype; try done; (split; [reflexivity|]); try done;
    intros _; vm_compute; lia.
Qed.

Lemma array_kind_entry_kind feature_type :
  is_array feature_type = true → feature_type ∉ [BBOX; TIMESTAMPS].
Proof. destruct feature_type; try done; intros _; by_kind. Qed.

Lemma typed_collection_accepts feature_type d content :
  typed_collection feature_type d →
  accepts d content = accepts (empty_collection feature_type) content.
Proof. intros (Hf & Hc & Hn). by apply accepts_attributes. Qed.

Lemma array_patch_mono w w' timestamps patch :
  (∀ l o, heap w !! l = Some o → heap w' !! l = Some o) →
  array_patch w timestamps patch → array_patch w' timestamps patch.
Proof.
  intros Hext Hinv ft d Hd. destruct (Hinv ft d Hd) as [Htyped Hentries].
  split; [done|]. intros n r Hn.
  destruct (Hentries n r Hn) as (Harr & Hname & a & Ha & Hacc & Hcov).
  split; [done|]. split; [done|]. exists a. split; [by apply Hext|done].
Qed.

Lemma generate_features timestamps config :
  ∀ (items : list (FeatureType * string * (nat * list Z))) patch w,
    array_patch w timestamps patch →
    (∀ ftype fname draws, (ftype, fname, draws) ∈ items →
       is_array ftype = true ∧ valid_name fname) →
    ∃ patch' w',
      foldM (testing.generate_feature timestamps config) patch items w = (Ok patch', w')
      ∧ array_patch w' timestamps patch'
      ∧ EOPatch.bbox patch' = EOPatch.bbox patch
      ∧ EOPatch.timestamps patch' = EOPatch.timestamps patch
      ∧ (∀ ftype fname,
           EOPatch.__contains__ patch' (Pair ftype (Name fname)) w'
           = (Ok (true, patch'), w')
           ↔ EOPatch.__contains__ patch (Pair ftype (Name fname)) w
             = (Ok (true, patch), w)
             ∨ (ftype, fname) ∈ items.*1)
      ∧ only_values_added w w'.
Proof.
  induction items as [|[[ftype fname] [depth samples]] items IH];
    intros patch w Hinv Hitems.
  - exists patch, w. split; [done|]. split; [done|]. split; [done|]. split; [done|].
    split; [|apply only_values_added_refl].
    intros ft fn. split; [by left|]. intros [?|Hin]; [done|inversion Hin].
  - destruct (Hitems ftype fname (depth, samples)) as [Harr Hname]; [left|].
    destruct (entry_kind_dict patch ftype (array_kind_entry_kind _ Harr))
      as (d & Hd & _).
    destruct (Hinv ftype d Hd) as [Htyped Hentries].
    set (shape := testing._get_feature_shape depth ftype timestamps config).
    set (a := testing._generate_feature_data samples ftype shape config).
    destruct (generated_data_shape depth ftype timestamps config samples Harr)
      as (Hacc & Hcov).
    fold shape a in Hacc, Hcov.
    rewrite foldM_cons, bind_unfold. unfold testing.generate_feature at 1.
    fold shape a. rewrite bind_unfold, alloc_unfold.
    set (ref := fresh (dom (heap w))).
    set (w1 := {| heap := <[ref := OValue (VNdarray a)]> (heap w);
                  backing_store := backing_store w; calls := calls w |}).
    assert (Hadd1 : only_values_added w w1)
      by apply (only_values_added_alloc w (VNdarray a)).
    assert (Href : heap w1 !! ref = Some (OValue (VNdarray a)))
      by (simpl; by rewrite lookup_insert_eq).
    assert (Hacc_d : accepts d (VNdarray a) = true)
      by (by rewrite (typed_collection_accepts _ _ _ Htyped)).
    rewrite (setitem_entry_unfold _ _ _ _ _ _ Hd), bind_unfold.
    rewrite (setitem_valid_entry d fname ref w1 Hname);
      [|exists (OValue (VNdarray a)); split; [done|split; [done|]];
        unfold stored_form; by destruct (_FeatureDict.class d)].
    rewrite ret_unfold. cbv beta iota.
    set (d1 := _FeatureDict.with_items d (<[fname := ref]> (_FeatureDict.items d))).
    set (patch1 := EOPatch.set_feature_dict patch ftype d1).
    assert (Hd1 : EOPatch.feature_dict patch1 ftype = Some d1)
      by (by apply (feature_dict_set_same _ _ _ d)).
    assert (Hinv1 : array_patch w1 timestamps patch1).
    { intros ft d' Hd'. destruct (decide (ft = ftype)) as [->|Hne].
      - assert (d' = d1) as -> by congruence.
        split; [exact Htyped|]. intros n r Hn. simpl in Hn.
        destruct (decide (n = fname)) as [->|Hnn].
        + rewrite lookup_insert_eq in Hn. injection Hn as <-.
          split; [done|]. split; [done|]. exists a. by repeat split.
        + rewrite lookup_insert_ne in Hn by done.
          destruct (Hentries n r Hn) as (? & ? & b & Hb & Hbacc & Hbcov).
          split; [done|]. split; [done|]. exists b.
          split; [by apply Hadd1|done].
      - unfold patch1 in Hd'. rewrite feature_dict_set_other in Hd' by done.
        apply (array_patch_mono w w1 timestamps patch (proj1 Hadd1) Hinv ft d' Hd'). }
    destruct (IH patch1 w1 Hinv1) as (patch' & w' & Hfold & Hinv' & Hbb & Hts & Hmem & Hadd).
    { intros ft fn dr Hin. apply (Hitems ft fn dr). by right. }
    exists patch', w'. split; [done|]. split; [done|]. split; [done|]. split; [done|].
    split; [|by apply (only_values_added_trans w w1 w')].
    intros ft fn. specialize (Hmem ft fn).
    assert (Hcons : (ft, fn) ∈ ((ftype, fname, (depth, samples)) :: items).*1
                    ↔ (ft, fn) = (ftype, fname) ∨ (ft, fn) ∈ items.*1)
      by (simpl; apply elem_of_cons).
    assert (Hstep : EOPatch.__contains__ patch1 (Pair ft (Name fn)) w1
                    = (Ok (true, patch1), w1)
                    ↔ EOPatch.__contains__ patch (Pair ft (Name fn)) w
                      = (Ok (true, patch), w)
                      ∨ (ft, fn) = (ftype, fname)).
    { destruct (decide (ft ∈ [BBOX; TIMESTAMPS])) as [Hs|Hs].
      - assert (EOPatch.__contains__ patch1 (Pair ft (Name fn)) w1
                = (Ok (EOPatch.truth (EOPatch.getattr patch ft), patch1), w1)) as ->.
        { apply elem_of_cons in Hs as [->|Hs]; [done|].
          apply elem_of_cons in Hs as [->|Hs]; [done|]. inversion Hs. }
        assert (EOPatch.__contains__ patch (Pair ft (Name fn)) w
                = (Ok (EOPatch.truth (EOPatch.getattr patch ft), patch), w)) as ->.
        { apply elem_of_cons in Hs as [->|Hs]; [done|].
          apply elem_of_cons in Hs as [->|Hs]; [done|]. inversion Hs. }
        split.
        + intros [= ->]. by left.
        + intros [[= ->]|[= -> _]]; [done|].
          exfalso. by apply (array_kind_entry_kind ftype Harr).
      - destruct (entry_kind_dict patch ft Hs) as (d0 & Hd0 & _).
        destruct (entry_kind_dict patch1 ft Hs) as (d0' & Hd0' & _).
        rewrite (contains_entry _ _ _ _ _ Hd0), (contains_entry _ _ _ _ _ Hd0').
        simpl. destruct (decide (ft = ftype)) as [->|Hne].
        + assert (d0' = d1) as -> by congruence.
          assert (d0 = d) as -> by congruence. simpl.
          destruct (decide (fn = fname)) as [->|Hnn].
          * rewrite lookup_insert_eq.
            rewrite bool_decide_eq_true_2 by (by eexists). split; [by right|done].
          * rewrite lookup_insert_ne by done. split.
            -- intros [= H]. left. by rewrite H.
            -- intros [[= H]|Heq]; [by rewrite H|by simplify_eq].
        + unfold patch1 in Hd0'. rewrite feature_dict_set_other in Hd0' by done.
          assert (d0' = d0) as -> by congruence. split.
          * intros [= H]. left. by rewrite H.
          * intros [[= H]|Heq]; [by rewrite H|by simplify_eq]. }
    tauto.
Qed.

Lemma empty_patch_is_array_patch w bbox timestamps :
  array_patch w timestamps (empty_patch bbox timestamps).
Proof.
  intros ft d Hd.
  assert (d = empty_collection ft) as ->
    by (destruct ft; simpl in Hd; by simplify_eq).
  split; [done|]. intros n r Hn. simpl in Hn. by rewrite lookup_empty in Hn.
Qed.


